(** * Oculus.h: the Oculus Rift rendering pipeline

    A shallow embedding of [src/Oculus.h] (class template [Oculus<T>]) and the
    properties of its viewport split, texture sizing, orientation tracking,
    singleton guard, debug-device fallback and per-frame call order.

    Conventions of the embedding
    - a C++ [int] is a [Z] in the 32-bit two's complement range; arithmetic
      that can leave the range is written with [CInt.wrap];
    - a C++ [float] is an IEEE-754 binary32 value ([spec_float] with
      precision 24 and maximal exponent 128), [double] is binary64;
    - a method of [Oculus<T>] is a command of the monad [M]: it reads and
      writes the object ([this]), appends the calls it makes into the
      OpenGL / LibOVR / SDL / scene / logger collaborators to a trace, and
      either returns or aborts on a failed [assert];
    - what a collaborator returns is an input of the command (a reply);
    - LibOVR, glm and Utils code and constants that the header only uses are
      the fields of the interface [Externals]. *)

From Stdlib Require Import ZArith List Bool Lia String QArith Qabs.
From Corelib Require Import SpecFloat.
Import ListNotations.
Local Open Scope Z_scope.

Set Implicit Arguments.

(** ** C++ [int] *)

Module CInt.

Definition INT_MIN : Z := - 2 ^ 31.
Definition INT_MAX : Z := 2 ^ 31 - 1.

Definition in_range (z : Z) : Prop := INT_MIN <= z <= INT_MAX.

(** Two's complement reduction to 32 bits. Signed overflow is undefined in
    C++; the model wraps, and the statements about sums say when the sum is
    representable. *)
Definition wrap (z : Z) : Z := (z + 2 ^ 31) mod 2 ^ 32 - 2 ^ 31.

Definition add (a b : Z) : Z := wrap (a + b).

(** [a / b] on [int]: the quotient truncated towards zero. *)
Definition div (a b : Z) : Z := wrap (Z.quot a b).

End CInt.

(** ** C++ [float] and [double] *)

Definition float : Type := spec_float.
Definition double : Type := spec_float.

Module F32.

Definition prec : Z := 24.
Definition emax : Z := 128.
Definition sub (a b : float) : float := SFsub prec emax a b.
Definition div (a b : float) : float := SFdiv prec emax a b.
Definition of_Z (z : Z) : float := binary_normalize prec emax z 0 false.

(** The float nearest to the decimal [n / d] (both exactly representable). *)
Definition of_ratio (n d : Z) : float := div (of_Z n) (of_Z d).

(** Zeros and finite numbers, as opposed to infinities and NaN. *)
Definition is_finite (f : float) : bool :=
  match f with
  | S754_zero _ | S754_finite _ _ _ => true
  | _ => false
  end.

(** The exact rational value of a finite float. *)
Definition to_Q (f : float) : Q :=
  match f with
  | S754_finite s m e =>
      let v := if s then Z.neg m else Z.pos m in
      if 0 <=? e then inject_Z (v * 2 ^ e) else Qmake v (Z.to_pos (2 ^ (- e)))
  | _ => 0%Q
  end.

(** [|f - q| <= tol] on exact values. *)
Definition within (tol : Q) (f : float) (q : Q) : Prop :=
  (Qabs (to_Q f - q) <= tol)%Q.

End F32.

(** The literals [1.0f], [0.01f] and [10000.0f]. *)
Definition lit_1_0f : float := F32.of_Z 1.
Definition lit_0_01f : float := F32.of_ratio 1 100.
Definition lit_10000_0f : float := F32.of_Z 10000.

(** ** glm::vec3 *)

Record vec3 : Type := mk_vec3 { vec_x : float; vec_y : float; vec_z : float }.

(** [v[i]] for the indices the code uses. *)
Definition vec3_at (v : vec3) (i : nat) : float :=
  match i with
  | O => vec_x v
  | S O => vec_y v
  | _ => vec_z v
  end.

(** [a - b], component by component. *)
Definition vec3_sub (a b : vec3) : vec3 :=
  mk_vec3 (F32.sub (vec_x a) (vec_x b))
          (F32.sub (vec_y a) (vec_y b))
          (F32.sub (vec_z a) (vec_z b)).

(** The half of [w] rounded down and rounded up. *)
Definition floor_half (w : Z) : Z := w / 2.
Definition ceil_half (w : Z) : Z := - (- w / 2).

(** ** LibOVR C API types (the fields the header touches) *)

Inductive ovrEyeType : Type := ovrEye_Left | ovrEye_Right.

Definition ovrEye_Count : nat := 2.

Inductive ovrHmdType : Type :=
| ovrHmd_None | ovrHmd_DK1 | ovrHmd_DKHD | ovrHmd_CrystalCoveProto
| ovrHmd_DK2 | ovrHmd_Other.

(** [ovrHmd] is a pointer; [0] is the null handle. *)
Definition ovrHmd : Type := Z.
Definition GLuint : Type := Z.

Record ovrSizei : Type := mk_Sizei { Size_w : Z; Size_h : Z }.
Record ovrVector2i : Type := mk_Vector2i { Pos_x : Z; Pos_y : Z }.
Record ovrRecti : Type := mk_Recti { Pos : ovrVector2i; Size : ovrSizei }.

Record ovrFovPort : Type :=
  mk_FovPort { UpTan : float; DownTan : float; LeftTan : float; RightTan : float }.
Record ovrVector3f : Type := mk_Vector3f { v3_x : float; v3_y : float; v3_z : float }.
Record ovrQuatf : Type := mk_Quatf { q_x : float; q_y : float; q_z : float; q_w : float }.
Record ovrPosef : Type := mk_Posef { Orientation : ovrQuatf; Position : ovrVector3f }.
Record ovrPoseStatef : Type := mk_PoseStatef { Pose : ovrPosef }.

Record ovrSensorState : Type :=
  mk_SensorState { Predicted : ovrPoseStatef; StatusFlags : Z }.

Record ovrFrameTiming : Type := mk_FrameTiming { ScanoutMidpointSeconds : double }.

(** A C array of two elements. *)
Record array2 (A : Type) : Type := mk_array2 { elt0 : A; elt1 : A }.

Definition at_index (A : Type) (a : array2 A) (i : nat) : A :=
  match i with O => elt0 a | _ => elt1 a end.

Definition eye_index (e : ovrEyeType) : nat :=
  match e with ovrEye_Left => 0%nat | ovrEye_Right => 1%nat end.

(** [a[e]] and [a[e] = v] with an eye as the index. *)
Definition at_eye (A : Type) (a : array2 A) (e : ovrEyeType) : A :=
  at_index a (eye_index e).

Definition set_eye (A : Type) (a : array2 A) (e : ovrEyeType) (v : A) : array2 A :=
  match e with
  | ovrEye_Left => mk_array2 v (elt1 a)
  | ovrEye_Right => mk_array2 (elt0 a) v
  end.

Record ovrHmdDesc : Type :=
  mk_HmdDesc { DefaultEyeFov : array2 ovrFovPort;
               EyeRenderOrder : array2 ovrEyeType }.

Record ovrEyeRenderDesc : Type :=
  mk_EyeRenderDesc { Fov : ovrFovPort; ViewAdjust : ovrVector3f }.

(** [ovrGLTexture], seen through its [OGL] member. *)
Record ovrGLTexture : Type :=
  mk_GLTexture { Header_API : Z;
                 Header_TextureSize : ovrSizei;
                 Header_RenderViewport : ovrRecti;
                 TexId : GLuint }.

(** [ovrGLConfig], seen through its [OGL] member (X11 build). *)
Record ovrGLConfig : Type :=
  mk_GLConfig { Cfg_API : Z;
                Cfg_RTSize : ovrSizei;
                Cfg_Multisample : bool;
                Cfg_Win : Z;
                Cfg_Disp : Z }.

(** What [SDL_GetWindowWMInfo] writes and returns. *)
Record SDL_SysWMinfo : Type := mk_WMinfo { x11_window : Z; x11_display : Z }.

(** ** Code and constants of LibOVR, glm and Utils.h that the header uses *)

Class Externals : Type := {
  Matrix4f : Type;
  mat4 : Type;
  (* OVR_CAPI.h constants *)
  ovrStatus_OrientationTracked : Z;
  ovrStatus_PositionTracked : Z;
  ovrDistortionCap_Chromatic : Z;
  ovrDistortionCap_TimeWarp : Z;
  ovrSensorCap_Orientation : Z;
  ovrSensorCap_YawCorrection : Z;
  ovrSensorCap_Position : Z;
  ovrRenderAPI_OpenGL : Z;
  (* OVR_Math.h *)
  GetEulerAngles_YXZ : ovrQuatf -> float * float * float;
  RadToDegree : float -> float;
  Quatf_Inverted : ovrQuatf -> ovrQuatf;
  Matrix4f_Translation : ovrVector3f -> Matrix4f;
  Matrix4f_of_Quatf : ovrQuatf -> Matrix4f;
  Matrix4f_mul : Matrix4f -> Matrix4f -> Matrix4f;
  Matrix4f_Transposed : Matrix4f -> Matrix4f;
  ovrMatrix4f_Projection : ovrFovPort -> float -> float -> bool -> Matrix4f;
  (* the texture size the SDK recommends for an eye, a field of view and a
     pixel density *)
  ovrHmd_GetFovTextureSize : ovrHmd -> ovrEyeType -> ovrFovPort -> float -> ovrSizei;
  (* Utils.h and <cmath> *)
  Utils_isEqual : float -> float -> bool;
  Utils_ovr2glmMat : Matrix4f -> mat4;
  Utils_radToDegree : float -> float;
  (* [2 * atan(x)] as <cmath> computes it *)
  c_two_atan : float -> float
}.

(** The scene type [T] of [Oculus<T>]: what the header calls on it. *)
Class Scene (T : Type) : Type := {
  windowWidth : T -> Z;
  windowHeight : T -> Z;
  window : T -> Z
}.

(** ** Calls into the collaborators *)

(** The OpenGL entry points and enumerants the header names. *)
Inductive GLfn : Type :=
| glDisable | glEnable | glGenFramebuffers | glBindFramebuffer
| glGenTextures | glBindTexture | glTexImage2D | glTexParameteri
| glGenRenderbuffers | glBindRenderbuffer | glRenderbufferStorage
| glFramebufferRenderbuffer | glFramebufferTexture | glDrawBuffers
| glCheckFramebufferStatus | glDeleteFramebuffers | glDeleteTextures
| glDeleteRenderbuffers | glViewport | glBindBuffer | glUseProgram
| glClearColor | glClear.

Inductive GLenum : Type :=
| GL_TEXTURE_2D | GL_DEPTH_TEST | GL_MULTISAMPLE | GL_FRAMEBUFFER | GL_RGBA
| GL_UNSIGNED_BYTE | GL_TEXTURE_MAG_FILTER | GL_LINEAR
| GL_TEXTURE_MIN_FILTER | GL_RENDERBUFFER | GL_DEPTH_COMPONENT
| GL_DEPTH_ATTACHMENT | GL_COLOR_ATTACHMENT0 | GL_DRAW_FRAMEBUFFER
| GL_ELEMENT_ARRAY_BUFFER | GL_ARRAY_BUFFER | GL_COLOR_BUFFER_BIT
| GL_DEPTH_BUFFER_BIT.

Inductive GLarg : Type :=
| gl_enum (name : GLenum)
| gl_bits (names : list GLenum)
| gl_int (v : Z).

Inductive LogArg : Type :=
| log_text (s : string)
| log_float (f : float).

(** ** Failed assertions and outcomes of commands *)

Inductive Failure : Type :=
| assert_not_alreadyCreated
| assert_hmd
| assert_textureSize_w
| assert_textureSize_h
| assert_FBOId
| assert_depthBufferId
| assert_framebuffer_complete
| assert_infoRes
| assert_configurationRes.

Inductive Outcome (A : Type) : Type :=
| Ok (a : A)
| Abort (f : Failure).

Arguments Abort {A} f.

Section Pipeline.

Context {ext : Externals} (T : Type) {scene_ops : Scene T}.

Inductive Event : Type :=
| logger_debug (msg : list LogArg)
| gl (fn : GLfn) (args : list GLarg)
| Utils_GLGetError
| ovr_Initialize
| ovr_Shutdown
| ovrHmd_Create (index : Z)
| ovrHmd_CreateDebug (type : ovrHmdType)
| ovrHmd_Destroy (hmd : ovrHmd)
| ovrHmd_GetDesc (hmd : ovrHmd)
| ovrHmd_ConfigureRendering (hmd : ovrHmd) (cfg : ovrGLConfig)
    (distortionCaps : Z) (eyeFov : array2 ovrFovPort)
| ovrHmd_StartSensor (hmd : ovrHmd) (supportedCaps requiredCaps : Z)
| SDL_GetWindowWMInfo (window : Z)
| ovrHmd_BeginFrame (hmd : ovrHmd) (frameIndex : Z)
| ovrHmd_GetSensorState (hmd : ovrHmd) (absTime : double)
| ovrHmd_BeginEyeRender (hmd : ovrHmd) (eye : ovrEyeType)
| scene_render (MV Proj : mat4)
| ovrHmd_EndEyeRender (hmd : ovrHmd) (eye : ovrEyeType)
    (renderPose : ovrPosef) (eyeTexture : ovrGLTexture)
| ovrHmd_EndFrame (hmd : ovrHmd).

(** ** The members of [Oculus<T>] *)

Record Oculus : Type := mk_Oculus {
  scene_ : T;
  textureId_ : GLuint;
  FBOId_ : GLuint;
  depthBufferId_ : GLuint;
  hmd_ : ovrHmd;
  hmdDesc_ : ovrHmdDesc;
  eyeRenderDesc_ : array2 ovrEyeRenderDesc;
  eyeTexture_ : array2 ovrGLTexture;
  eyeFov_ : array2 ovrFovPort;
  cfg_ : ovrGLConfig;
  windowSize_ : ovrSizei;
  textureSizeLeft_ : ovrSizei;
  textureSizeRight_ : ovrSizei;
  textureSize_ : ovrSizei;
  frameTiming_ : ovrFrameTiming;
  sensorState_ : ovrSensorState;
  angles_ : vec3;
  dAngles_ : vec3;
  distortionCaps_ : Z;
  usingDebugHmd_ : bool;
  multisampleEnabled_ : bool
}.

(** Member assignments. *)

Definition set_textureId_ (v : GLuint) (o : Oculus) : Oculus :=
  let 'mk_Oculus a _ c d e f g h i j k l m n p q r s t u w := o in
  mk_Oculus a v c d e f g h i j k l m n p q r s t u w.

Definition set_FBOId_ (v : GLuint) (o : Oculus) : Oculus :=
  let 'mk_Oculus a b _ d e f g h i j k l m n p q r s t u w := o in
  mk_Oculus a b v d e f g h i j k l m n p q r s t u w.

Definition set_depthBufferId_ (v : GLuint) (o : Oculus) : Oculus :=
  let 'mk_Oculus a b c _ e f g h i j k l m n p q r s t u w := o in
  mk_Oculus a b c v e f g h i j k l m n p q r s t u w.

Definition set_hmd_ (v : ovrHmd) (o : Oculus) : Oculus :=
  let 'mk_Oculus a b c d _ f g h i j k l m n p q r s t u w := o in
  mk_Oculus a b c d v f g h i j k l m n p q r s t u w.

Definition set_hmdDesc_ (v : ovrHmdDesc) (o : Oculus) : Oculus :=
  let 'mk_Oculus a b c d e _ g h i j k l m n p q r s t u w := o in
  mk_Oculus a b c d e v g h i j k l m n p q r s t u w.

Definition set_eyeRenderDesc_ (v : array2 ovrEyeRenderDesc) (o : Oculus) : Oculus :=
  let 'mk_Oculus a b c d e f _ h i j k l m n p q r s t u w := o in
  mk_Oculus a b c d e f v h i j k l m n p q r s t u w.

Definition set_eyeTexture_ (v : array2 ovrGLTexture) (o : Oculus) : Oculus :=
  let 'mk_Oculus a b c d e f g _ i j k l m n p q r s t u w := o in
  mk_Oculus a b c d e f g v i j k l m n p q r s t u w.

Definition set_eyeFov_ (v : array2 ovrFovPort) (o : Oculus) : Oculus :=
  let 'mk_Oculus a b c d e f g h _ j k l m n p q r s t u w := o in
  mk_Oculus a b c d e f g h v j k l m n p q r s t u w.

Definition set_cfg_ (v : ovrGLConfig) (o : Oculus) : Oculus :=
  let 'mk_Oculus a b c d e f g h i _ k l m n p q r s t u w := o in
  mk_Oculus a b c d e f g h i v k l m n p q r s t u w.

Definition set_windowSize_ (v : ovrSizei) (o : Oculus) : Oculus :=
  let 'mk_Oculus a b c d e f g h i j _ l m n p q r s t u w := o in
  mk_Oculus a b c d e f g h i j v l m n p q r s t u w.

Definition set_textureSizeLeft_ (v : ovrSizei) (o : Oculus) : Oculus :=
  let 'mk_Oculus a b c d e f g h i j k _ m n p q r s t u w := o in
  mk_Oculus a b c d e f g h i j k v m n p q r s t u w.

Definition set_textureSizeRight_ (v : ovrSizei) (o : Oculus) : Oculus :=
  let 'mk_Oculus a b c d e f g h i j k l _ n p q r s t u w := o in
  mk_Oculus a b c d e f g h i j k l v n p q r s t u w.

Definition set_textureSize_ (v : ovrSizei) (o : Oculus) : Oculus :=
  let 'mk_Oculus a b c d e f g h i j k l m _ p q r s t u w := o in
  mk_Oculus a b c d e f g h i j k l m v p q r s t u w.

Definition set_frameTiming_ (v : ovrFrameTiming) (o : Oculus) : Oculus :=
  let 'mk_Oculus a b c d e f g h i j k l m n _ q r s t u w := o in
  mk_Oculus a b c d e f g h i j k l m n v q r s t u w.

Definition set_sensorState_ (v : ovrSensorState) (o : Oculus) : Oculus :=
  let 'mk_Oculus a b c d e f g h i j k l m n p _ r s t u w := o in
  mk_Oculus a b c d e f g h i j k l m n p v r s t u w.

Definition set_angles_ (v : vec3) (o : Oculus) : Oculus :=
  let 'mk_Oculus a b c d e f g h i j k l m n p q _ s t u w := o in
  mk_Oculus a b c d e f g h i j k l m n p q v s t u w.

Definition set_dAngles_ (v : vec3) (o : Oculus) : Oculus :=
  let 'mk_Oculus a b c d e f g h i j k l m n p q r _ t u w := o in
  mk_Oculus a b c d e f g h i j k l m n p q r v t u w.

Definition set_distortionCaps_ (v : Z) (o : Oculus) : Oculus :=
  let 'mk_Oculus a b c d e f g h i j k l m n p q r s _ u w := o in
  mk_Oculus a b c d e f g h i j k l m n p q r s v u w.

Definition set_usingDebugHmd_ (v : bool) (o : Oculus) : Oculus :=
  let 'mk_Oculus a b c d e f g h i j k l m n p q r s t _ w := o in
  mk_Oculus a b c d e f g h i j k l m n p q r s t v w.

(** ** Commands: object state, static flag, call trace, failed assertions *)

(** [alreadyCreated] is the static member [Oculus<T>::alreadyCreated]. *)
Record World : Type := mk_World {
  alreadyCreated : bool;
  this : Oculus;
  calls : list Event
}.

Definition M (A : Type) : Type := World -> Outcome (A * World).

Definition ret (A : Type) (a : A) : M A := fun w => Ok (a, w).

Definition bind (A B : Type) (c : M A) (k : A -> M B) : M B :=
  fun w => match c w with
           | Ok (a, w') => k a w'
           | Abort f => Abort f
           end.

Definition call (e : Event) : M unit :=
  fun w => Ok (tt, mk_World (alreadyCreated w) (this w) (calls w ++ [e])).

Definition get (A : Type) (field : Oculus -> A) : M A :=
  fun w => Ok (field (this w), w).

Definition assign (upd : Oculus -> Oculus) : M unit :=
  fun w => Ok (tt, mk_World (alreadyCreated w) (upd (this w)) (calls w)).

Definition get_alreadyCreated : M bool :=
  fun w => Ok (alreadyCreated w, w).

Definition set_alreadyCreated (b : bool) : M unit :=
  fun w => Ok (tt, mk_World b (this w) (calls w)).

(** [assert(cond)]; NDEBUG is not defined in the header. *)
Definition assert (cond : bool) (f : Failure) : M unit :=
  fun w => if cond then Ok (tt, w) else Abort f.

Notation "x <- c ;; k" := (bind c (fun x => k))
  (at level 61, c at next level, right associativity).
Notation "c ;; k" := (bind c (fun _ => k))
  (at level 61, right associativity).

(** ** Orientation tracking *)

(** [bool isMoving() const]: the loop over the three axes, [res] being the
    accumulator, [i] the axis and [n] the number of iterations left. *)
Fixpoint isMoving_loop (o : Oculus) (i n : nat) (res : bool) : bool :=
  match n with
  | O => res
  | S n' =>
      isMoving_loop o (S i) n'
        (res && Utils_isEqual (vec3_at (angles_ o) i) (vec3_at (dAngles_ o) i))
  end.

Definition isMoving (o : Oculus) : bool :=
  let res := false in
  negb (isMoving_loop o 0 3 res).

Definition isUsingDebugHmd (o : Oculus) : bool := usingDebugHmd_ o.

Definition angles (o : Oculus) : vec3 := angles_ o.

Definition setAngles (angles : vec3) : M unit :=
  assign (set_angles_ angles).

(** The test [StatusFlags & (ovrStatus_OrientationTracked | ovrStatus_PositionTracked)]. *)
Definition tracked (flags : Z) : bool :=
  negb (Z.land flags (Z.lor ovrStatus_OrientationTracked ovrStatus_PositionTracked) =? 0).

(** [getInput()]; [reply] is what [ovrHmd_GetSensorState] returns. *)
Definition getInput (reply : ovrSensorState) : M unit :=
  oldAngles <- get angles_ ;;
  hmd <- get hmd_ ;;
  timing <- get frameTiming_ ;;
  call (ovrHmd_GetSensorState hmd (ScanoutMidpointSeconds timing)) ;;
  assign (set_sensorState_ reply) ;;
  sensorState <- get sensorState_ ;;
  if tracked (StatusFlags sensorState) then
    let pose := Pose (Predicted sensorState) in
    let quat := Orientation pose in
    let '(a, b, c) := GetEulerAngles_YXZ quat in
    assign (set_angles_ (mk_vec3 a b c)) ;;
    now <- get angles_ ;;
    assign (set_dAngles_ (vec3_sub now oldAngles)) ;;
    ang <- get angles_ ;;
    dang <- get dAngles_ ;;
    call (logger_debug [log_text "Angles: ";
                        log_float (RadToDegree (vec3_at ang 0)); log_text ", ";
                        log_float (RadToDegree (vec3_at ang 1)); log_text ", ";
                        log_float (RadToDegree (vec3_at ang 1)); log_text " degrees"]) ;;
    call (logger_debug [log_text "Angles: ";
                        log_float (vec3_at ang 0); log_text ", ";
                        log_float (vec3_at ang 1); log_text ", ";
                        log_float (vec3_at ang 1); log_text " rad"]) ;;
    call (logger_debug [log_text "DAngles: ";
                        log_float (RadToDegree (vec3_at dang 0)); log_text ", ";
                        log_float (RadToDegree (vec3_at dang 1)); log_text ", ";
                        log_float (RadToDegree (vec3_at dang 1)); log_text " degrees"])
  else
    call (logger_debug [log_text "No input data (using debug hmd)"]).

(** The angles [getInput()] reads off a sensor reply. *)
Definition eulerAngles (reply : ovrSensorState) : vec3 :=
  let '(a, b, c) := GetEulerAngles_YXZ (Orientation (Pose (Predicted reply))) in
  mk_vec3 a b c.

(** The three debug lines of the tracking branch. *)
Definition angle_logs (ang dang : vec3) : list Event :=
  [logger_debug [log_text "Angles: ";
                 log_float (RadToDegree (vec3_at ang 0)); log_text ", ";
                 log_float (RadToDegree (vec3_at ang 1)); log_text ", ";
                 log_float (RadToDegree (vec3_at ang 1)); log_text " degrees"];
   logger_debug [log_text "Angles: ";
                 log_float (vec3_at ang 0); log_text ", ";
                 log_float (vec3_at ang 1); log_text ", ";
                 log_float (vec3_at ang 1); log_text " rad"];
   logger_debug [log_text "DAngles: ";
                 log_float (RadToDegree (vec3_at dang 0)); log_text ", ";
                 log_float (RadToDegree (vec3_at dang 1)); log_text ", ";
                 log_float (RadToDegree (vec3_at dang 1)); log_text " degrees"]].

(** ** Render target sizes and eye viewports *)

Definition with_w (v : Z) (s : ovrSizei) : ovrSizei := mk_Sizei v (Size_h s).
Definition with_h (v : Z) (s : ovrSizei) : ovrSizei := mk_Sizei (Size_w s) v.

Definition computeSizes : M unit :=
  scene <- get scene_ ;;
  windowSize <- get windowSize_ ;;
  assign (set_windowSize_ (with_w (windowWidth scene) windowSize)) ;;
  windowSize <- get windowSize_ ;;
  assign (set_windowSize_ (with_h (windowHeight scene) windowSize)) ;;
  desc <- get hmdDesc_ ;;
  call (logger_debug
          [log_text "Fov: ";
           log_float (Utils_radToDegree
                        (c_two_atan (UpTan (at_index (DefaultEyeFov desc) 0))))]) ;;
  hmd <- get hmd_ ;;
  assign (set_textureSizeLeft_
            (ovrHmd_GetFovTextureSize hmd ovrEye_Left
               (at_index (DefaultEyeFov desc) 0) lit_1_0f)) ;;
  assign (set_textureSizeRight_
            (ovrHmd_GetFovTextureSize hmd ovrEye_Right
               (at_index (DefaultEyeFov desc) 1) lit_1_0f)) ;;
  left <- get textureSizeLeft_ ;;
  right <- get textureSizeRight_ ;;
  size <- get textureSize_ ;;
  assign (set_textureSize_ (with_w (CInt.add (Size_w left) (Size_w right)) size)) ;;
  size <- get textureSize_ ;;
  assign (set_textureSize_
            (with_h (if Size_h left >? Size_h right then Size_h left else Size_h right)
                    size)).

(** [setEyeTexture()]: every member of [eyeTexture_[0]] that is modelled is
    assigned, then [eyeTexture_[1]] is a copy with another [Pos.x]. *)
Definition setEyeTexture : M unit :=
  size <- get textureSize_ ;;
  tex <- get textureId_ ;;
  let eye0 :=
    mk_GLTexture ovrRenderAPI_OpenGL
      (mk_Sizei (Size_w size) (Size_h size))
      (mk_Recti (mk_Vector2i 0 0)
                (mk_Sizei (CInt.div (Size_w size) 2) (Size_h size)))
      tex in
  let eye1 :=
    mk_GLTexture (Header_API eye0) (Header_TextureSize eye0)
      (mk_Recti (mk_Vector2i (CInt.div (CInt.add (Size_w size) 1) 2)
                             (Pos_y (Pos (Header_RenderViewport eye0))))
                (Size (Header_RenderViewport eye0)))
      (TexId eye0) in
  assign (set_eyeTexture_ (mk_array2 eye0 eye1)).

(** The viewport [glViewport] receives for [eye]. *)
Definition eyeViewport (o : Oculus) (eye : ovrEyeType) : ovrRecti :=
  Header_RenderViewport (at_eye (eyeTexture_ o) eye).

(** The sum of the widths of the two eye viewports. *)
Definition viewport_width_sum (o : Oculus) : Z :=
  Size_w (Size (eyeViewport o ovrEye_Left)) +
  Size_w (Size (eyeViewport o ovrEye_Right)).

(** ** Construction and destruction *)

(** What the collaborators return during construction. *)
Record CtorReplies : Type := mk_CtorReplies {
  r_ovrHmd_Create : ovrHmd;
  r_ovrHmd_CreateDebug : ovrHmdType -> ovrHmd;
  r_ovrHmd_GetDesc : ovrHmd -> ovrHmdDesc;
  r_glGenFramebuffers : GLuint;
  r_glGenTextures : GLuint;
  r_glGenRenderbuffers : GLuint;
  r_framebuffer_complete : bool;
  r_SDL_GetWindowWMInfo : bool * SDL_SysWMinfo;
  r_ovrHmd_ConfigureRendering : bool * array2 ovrEyeRenderDesc
}.

(** Members the constructor's initialiser list leaves indeterminate. *)
Record Uninitialised : Type := mk_Uninitialised {
  u_hmdDesc : ovrHmdDesc;
  u_eyeRenderDesc : array2 ovrEyeRenderDesc;
  u_eyeTexture : array2 ovrGLTexture;
  u_eyeFov : array2 ovrFovPort;
  u_cfg : ovrGLConfig;
  u_frameTiming : ovrFrameTiming;
  u_sensorState : ovrSensorState
}.

Definition zero_f : float := S754_zero false.

(** The member initialiser list of [Oculus(T & scene)]. *)
Definition initial_members (scene : T) (u : Uninitialised) : Oculus :=
  mk_Oculus scene 0 0 0 0
    (u_hmdDesc u) (u_eyeRenderDesc u) (u_eyeTexture u) (u_eyeFov u) (u_cfg u)
    (mk_Sizei 0 0) (mk_Sizei 0 0) (mk_Sizei 0 0) (mk_Sizei 0 0)
    (u_frameTiming u) (u_sensorState u)
    (mk_vec3 zero_f zero_f zero_f) (mk_vec3 zero_f zero_f zero_f)
    0 false false.

Definition setOpenGLState : M unit :=
  call (gl glDisable [gl_enum GL_TEXTURE_2D]) ;;
  call (gl glEnable [gl_enum GL_DEPTH_TEST]) ;;
  multisample <- get multisampleEnabled_ ;;
  if multisample then call (gl glEnable [gl_enum GL_MULTISAMPLE]) else ret tt.

Definition initFBO (r : CtorReplies) : M unit :=
  size <- get textureSize_ ;;
  assert (negb (Size_w size =? 0)) assert_textureSize_w ;;
  assert (negb (Size_h size =? 0)) assert_textureSize_h ;;
  call (gl glGenFramebuffers [gl_int 1]) ;;
  assign (set_FBOId_ (r_glGenFramebuffers r)) ;;
  call Utils_GLGetError ;;
  fbo <- get FBOId_ ;;
  assert (negb (fbo =? 0)) assert_FBOId ;;
  call (gl glBindFramebuffer [gl_enum GL_FRAMEBUFFER; gl_int fbo]) ;;
  call Utils_GLGetError.

Definition initTexture (r : CtorReplies) : M unit :=
  call (gl glGenTextures [gl_int 1]) ;;
  assign (set_textureId_ (r_glGenTextures r)) ;;
  tex <- get textureId_ ;;
  call (gl glBindTexture [gl_enum GL_TEXTURE_2D; gl_int tex]) ;;
  size <- get textureSize_ ;;
  call (gl glTexImage2D
          [gl_enum GL_TEXTURE_2D; gl_int 0; gl_enum GL_RGBA;
           gl_int (Size_w size); gl_int (Size_h size); gl_int 0;
           gl_enum GL_RGBA; gl_enum GL_UNSIGNED_BYTE; gl_int 0]) ;;
  call (gl glTexParameteri
          [gl_enum GL_TEXTURE_2D; gl_enum GL_TEXTURE_MAG_FILTER; gl_enum GL_LINEAR]) ;;
  call (gl glTexParameteri
          [gl_enum GL_TEXTURE_2D; gl_enum GL_TEXTURE_MIN_FILTER; gl_enum GL_LINEAR]) ;;
  call Utils_GLGetError.

Definition initDepthBuffer (r : CtorReplies) : M unit :=
  call (gl glGenRenderbuffers [gl_int 1]) ;;
  assign (set_depthBufferId_ (r_glGenRenderbuffers r)) ;;
  call Utils_GLGetError ;;
  depth <- get depthBufferId_ ;;
  assert (negb (depth =? 0)) assert_depthBufferId ;;
  call (gl glBindRenderbuffer [gl_enum GL_RENDERBUFFER; gl_int depth]) ;;
  call Utils_GLGetError ;;
  size <- get textureSize_ ;;
  call (gl glRenderbufferStorage
          [gl_enum GL_RENDERBUFFER; gl_enum GL_DEPTH_COMPONENT;
           gl_int (Size_w size); gl_int (Size_h size)]) ;;
  call Utils_GLGetError ;;
  call (gl glFramebufferRenderbuffer
          [gl_enum GL_FRAMEBUFFER; gl_enum GL_DEPTH_ATTACHMENT;
           gl_enum GL_RENDERBUFFER; gl_int depth]) ;;
  call Utils_GLGetError ;;
  tex <- get textureId_ ;;
  call (gl glFramebufferTexture
          [gl_enum GL_FRAMEBUFFER; gl_enum GL_COLOR_ATTACHMENT0; gl_int tex; gl_int 0]) ;;
  call Utils_GLGetError ;;
  call (gl glDrawBuffers [gl_int 1; gl_enum GL_COLOR_ATTACHMENT0]) ;;
  call Utils_GLGetError ;;
  call (gl glCheckFramebufferStatus [gl_enum GL_DRAW_FRAMEBUFFER]) ;;
  assert (r_framebuffer_complete r) assert_framebuffer_complete ;;
  call (gl glBindRenderbuffer [gl_enum GL_RENDERBUFFER; gl_int 0]) ;;
  call (gl glBindTexture [gl_enum GL_TEXTURE_2D; gl_int 0]) ;;
  call (gl glBindFramebuffer [gl_enum GL_FRAMEBUFFER; gl_int 0]) ;;
  call Utils_GLGetError.

(** [setCfg()], X11 branch of the preprocessor conditional. *)
Definition setCfg (r : CtorReplies) : M unit :=
  multisample <- get multisampleEnabled_ ;;
  windowSize <- get windowSize_ ;;
  cfg <- get cfg_ ;;
  assign (set_cfg_ (mk_GLConfig ovrRenderAPI_OpenGL
                      (mk_Sizei (Size_w windowSize) (Size_h windowSize))
                      multisample (Cfg_Win cfg) (Cfg_Disp cfg))) ;;
  scene <- get scene_ ;;
  call (SDL_GetWindowWMInfo (window scene)) ;;
  let '(infoRes, info) := r_SDL_GetWindowWMInfo r in
  assert infoRes assert_infoRes ;;
  cfg <- get cfg_ ;;
  assign (set_cfg_ (mk_GLConfig (Cfg_API cfg) (Cfg_RTSize cfg) (Cfg_Multisample cfg)
                      (x11_window info) (x11_display info))).

Definition is_null (hmd : ovrHmd) : bool := hmd =? 0.

(** The constructor [Oculus(T & scene)], lines 83 to 100 of its body: the
    singleton guard and the acquisition of a device. *)
Definition Oculus_ctor_acquire (r : CtorReplies) : M unit :=
  created <- get_alreadyCreated ;;
  assert (negb created) assert_not_alreadyCreated ;;
  call (logger_debug [log_text "Oculus constructor"]) ;;
  call ovr_Initialize ;;
  call (ovrHmd_Create 0) ;;
  assign (set_hmd_ (r_ovrHmd_Create r)) ;;
  hmd <- get hmd_ ;;
  if is_null hmd then
    call (ovrHmd_CreateDebug ovrHmd_DK1) ;;
    assign (set_hmd_ (r_ovrHmd_CreateDebug r ovrHmd_DK1)) ;;
    assign (set_usingDebugHmd_ true) ;;
    hmd <- get hmd_ ;;
    assert (negb (is_null hmd)) assert_hmd ;;
    call (logger_debug [log_text "Using the debug hmd"])
  else ret tt.

(** The constructor, lines 102 to 125: sizes, OpenGL objects, rendering
    configuration, sensors, and at last the singleton flag. *)
Definition Oculus_ctor_configure (r : CtorReplies) : M unit :=
  hmd <- get hmd_ ;;
  call (ovrHmd_GetDesc hmd) ;;
  assign (set_hmdDesc_ (r_ovrHmd_GetDesc r hmd)) ;;
  computeSizes ;;
  assign (set_distortionCaps_ (Z.lor ovrDistortionCap_Chromatic ovrDistortionCap_TimeWarp)) ;;
  desc <- get hmdDesc_ ;;
  assign (set_eyeFov_ (mk_array2 (at_index (DefaultEyeFov desc) 0)
                                 (at_index (DefaultEyeFov desc) 1))) ;;
  setOpenGLState ;;
  initFBO r ;;
  initTexture r ;;
  initDepthBuffer r ;;
  computeSizes ;;
  setCfg r ;;
  setEyeTexture ;;
  cfg <- get cfg_ ;;
  caps <- get distortionCaps_ ;;
  fov <- get eyeFov_ ;;
  call (ovrHmd_ConfigureRendering hmd cfg caps fov) ;;
  let '(configurationRes, eyeRenderDesc) := r_ovrHmd_ConfigureRendering r in
  assign (set_eyeRenderDesc_ eyeRenderDesc) ;;
  assert configurationRes assert_configurationRes ;;
  call (ovrHmd_StartSensor hmd
          (Z.lor (Z.lor ovrSensorCap_Orientation ovrSensorCap_YawCorrection)
                 ovrSensorCap_Position)
          ovrSensorCap_Orientation) ;;
  set_alreadyCreated true.

(** The body of the constructor [Oculus(T & scene)]. *)
Definition Oculus_ctor (r : CtorReplies) : M unit :=
  Oculus_ctor_acquire r ;;
  Oculus_ctor_configure r.

(** The body of the destructor. *)
Definition Oculus_dtor : M unit :=
  call (logger_debug [log_text "Oculus destructor"]) ;;
  fbo <- get FBOId_ ;;
  call (gl glDeleteFramebuffers [gl_int 1; gl_int fbo]) ;;
  tex <- get textureId_ ;;
  call (gl glDeleteTextures [gl_int 1; gl_int tex]) ;;
  depth <- get depthBufferId_ ;;
  call (gl glDeleteRenderbuffers [gl_int 1; gl_int depth]) ;;
  hmd <- get hmd_ ;;
  call (ovrHmd_Destroy hmd) ;;
  call ovr_Shutdown ;;
  set_alreadyCreated false.

(** ** One frame *)

(** What the runtime returns during one call of [render()];
    [r_BeginEyeRender i] is the pose returned in the [i]-th eye pass and
    [r_eyeRenderPose] the indeterminate content of the local array. *)
Record FrameReplies : Type := mk_FrameReplies {
  r_ovrHmd_BeginFrame : ovrFrameTiming;
  r_ovrHmd_GetSensorState : ovrSensorState;
  r_ovrHmd_BeginEyeRender : nat -> ovrPosef;
  r_eyeRenderPose : array2 ovrPosef
}.

(** [for (...; eyeIndex < n; eyeIndex++)] with the local array as loop state. *)
Fixpoint for_eyes (A : Type) (eyeIndex n : nat) (body : nat -> A -> M A) (a : A) : M A :=
  match n with
  | O => ret a
  | S n' => a' <- body eyeIndex a ;; for_eyes (S eyeIndex) n' body a'
  end.

(** The body of the loop of [render()]. *)
Definition eye_pass (r : FrameReplies) (eyeIndex : nat)
    (eyeRenderPose : array2 ovrPosef) : M (array2 ovrPosef) :=
  desc <- get hmdDesc_ ;;
  let eye := at_index (EyeRenderOrder desc) eyeIndex in
  hmd <- get hmd_ ;;
  call (ovrHmd_BeginEyeRender hmd eye) ;;
  let eyeRenderPose := set_eye eyeRenderPose eye (r_ovrHmd_BeginEyeRender r eyeIndex) in
  textures <- get eyeTexture_ ;;
  let viewport := Header_RenderViewport (at_eye textures eye) in
  call (gl glViewport [gl_int (Pos_x (Pos viewport)); gl_int (Pos_y (Pos viewport));
                         gl_int (Size_w (Size viewport)); gl_int (Size_h (Size viewport))]) ;;
  descs <- get eyeRenderDesc_ ;;
  let MV := Matrix4f_mul
              (Matrix4f_Translation (ViewAdjust (at_eye descs eye)))
              (Matrix4f_of_Quatf
                 (Quatf_Inverted (Orientation (at_eye eyeRenderPose eye)))) in
  let Proj := ovrMatrix4f_Projection (Fov (at_eye descs eye))
                lit_0_01f lit_10000_0f true in
  let glmMV := Utils_ovr2glmMat (Matrix4f_Transposed MV) in
  let glmProj := Utils_ovr2glmMat (Matrix4f_Transposed Proj) in
  call (scene_render glmMV glmProj) ;;
  call Utils_GLGetError ;;
  call (ovrHmd_EndEyeRender hmd eye (at_eye eyeRenderPose eye) (at_eye textures eye)) ;;
  ret eyeRenderPose.

Definition render (r : FrameReplies) : M unit :=
  call (gl glBindBuffer [gl_enum GL_ELEMENT_ARRAY_BUFFER; gl_int 0]) ;;
  call (gl glBindBuffer [gl_enum GL_ARRAY_BUFFER; gl_int 0]) ;;
  call (gl glUseProgram [gl_int 0]) ;;
  hmd <- get hmd_ ;;
  call (ovrHmd_BeginFrame hmd 0) ;;
  assign (set_frameTiming_ (r_ovrHmd_BeginFrame r)) ;;
  fbo <- get FBOId_ ;;
  call (gl glBindFramebuffer [gl_enum GL_FRAMEBUFFER; gl_int fbo]) ;;
  call (gl glClearColor [gl_int 0; gl_int 0; gl_int 0; gl_int 1]) ;;
  call (gl glClear [gl_bits [GL_COLOR_BUFFER_BIT; GL_DEPTH_BUFFER_BIT]]) ;;
  getInput (r_ovrHmd_GetSensorState r) ;;
  _ <- for_eyes 0 ovrEye_Count (eye_pass r) (r_eyeRenderPose r) ;;
  hmd <- get hmd_ ;;
  call (ovrHmd_EndFrame hmd).

(** The calls expected of the [eyeIndex]-th eye pass on object [o]: the eye
    is the one the runtime lists at [eyeIndex] in its render order. *)
Definition eye_pass_calls (o : Oculus) (r : FrameReplies) (eyeIndex : nat) : list Event :=
  let eye := at_index (EyeRenderOrder (hmdDesc_ o)) eyeIndex in
  let pose := r_ovrHmd_BeginEyeRender r eyeIndex in
  let viewport := eyeViewport o eye in
  let desc := at_eye (eyeRenderDesc_ o) eye in
  [ovrHmd_BeginEyeRender (hmd_ o) eye;
   gl glViewport [gl_int (Pos_x (Pos viewport)); gl_int (Pos_y (Pos viewport));
                    gl_int (Size_w (Size viewport)); gl_int (Size_h (Size viewport))];
   scene_render
     (Utils_ovr2glmMat
        (Matrix4f_Transposed
           (Matrix4f_mul (Matrix4f_Translation (ViewAdjust desc))
              (Matrix4f_of_Quatf (Quatf_Inverted (Orientation pose))))))
     (Utils_ovr2glmMat
        (Matrix4f_Transposed
           (ovrMatrix4f_Projection (Fov desc) lit_0_01f lit_10000_0f true)));
   Utils_GLGetError;
   ovrHmd_EndEyeRender (hmd_ o) eye pose (at_eye (eyeTexture_ o) eye)].

(** Binding and clearing the off-screen target. *)
Definition bind_and_clear (o : Oculus) : list Event :=
  [gl glBindFramebuffer [gl_enum GL_FRAMEBUFFER; gl_int (FBOId_ o)];
   gl glClearColor [gl_int 0; gl_int 0; gl_int 0; gl_int 1];
   gl glClear [gl_bits [GL_COLOR_BUFFER_BIT; GL_DEPTH_BUFFER_BIT]]].

(** Unbinding the buffers and the program, before the frame begins. *)
Definition unbind_calls : list Event :=
  [gl glBindBuffer [gl_enum GL_ELEMENT_ARRAY_BUFFER; gl_int 0];
   gl glBindBuffer [gl_enum GL_ARRAY_BUFFER; gl_int 0];
   gl glUseProgram [gl_int 0]].

Definition is_logger_debug (e : Event) : bool :=
  match e with logger_debug _ => true | _ => false end.

Definition count (p : Event -> bool) (l : list Event) : nat :=
  List.length (filter p l).

(** ** The process: the static flag, the live instances and the call trace *)

(** One instantiation [Oculus<T>] on its own, its objects made by the
    constructor [Oculus(T & scene)]. A program that uses a second
    instantiation, or copies objects, is [Program] further down. *)

Record Process : Type := mk_Process {
  proc_alreadyCreated : bool;
  proc_live : list Oculus;
  proc_calls : list Event
}.

(** [template<class T> bool Oculus<T>::alreadyCreated = false;] *)
Definition process_start : Process := mk_Process false [] [].

Inductive Op : Type :=
| op_new (scene : T) (u : Uninitialised) (r : CtorReplies)
| op_delete (i : nat)
| op_render (i : nat) (r : FrameReplies)
| op_getInput (i : nat) (reply : ovrSensorState)
| op_setAngles (i : nat) (angles : vec3).

Fixpoint remove_nth (A : Type) (i : nat) (l : list A) : list A :=
  match l, i with
  | [], _ => []
  | _ :: l', O => l'
  | a :: l', S i' => a :: remove_nth i' l'
  end.

Fixpoint replace_nth (A : Type) (i : nat) (v : A) (l : list A) : list A :=
  match l, i with
  | [], _ => []
  | _ :: l', O => v :: l'
  | a :: l', S i' => a :: replace_nth i' v l'
  end.

(** Run a method on the [i]-th live instance; nothing happens when there is
    no such instance. *)
Definition on_instance (p : Process) (i : nat) (method : M unit) : Outcome Process :=
  match nth_error (proc_live p) i with
  | None => Ok p
  | Some o =>
      match method (mk_World (proc_alreadyCreated p) o (proc_calls p)) with
      | Ok (_, w) =>
          Ok (mk_Process (alreadyCreated w) (replace_nth i (this w) (proc_live p)) (calls w))
      | Abort f => Abort f
      end
  end.

Definition step (p : Process) (op : Op) : Outcome Process :=
  match op with
  | op_new scene u r =>
      match Oculus_ctor r (mk_World (proc_alreadyCreated p)
                                    (initial_members scene u) (proc_calls p)) with
      | Ok (_, w) => Ok (mk_Process (alreadyCreated w) (proc_live p ++ [this w]) (calls w))
      | Abort f => Abort f
      end
  | op_delete i =>
      match on_instance p i Oculus_dtor with
      | Ok p' => Ok (mk_Process (proc_alreadyCreated p')
                                (remove_nth i (proc_live p')) (proc_calls p'))
      | Abort f => Abort f
      end
  | op_render i r => on_instance p i (render r)
  | op_getInput i reply => on_instance p i (getInput reply)
  | op_setAngles i a => on_instance p i (setAngles a)
  end.

Fixpoint run (p : Process) (ops : list Op) : Outcome Process :=
  match ops with
  | [] => Ok p
  | op :: ops' =>
      match step p op with
      | Ok p' => run p' ops'
      | Abort f => Abort f
      end
  end.

(** ** Vocabulary of the statements *)

(** Partial correctness: whenever [c] returns from [w], [Q] holds of the
    result and the final world. *)
Definition post (A : Type) (c : M A) (w : World) (Q : A -> World -> Prop) : Prop :=
  forall a w', c w = Ok (a, w') -> Q a w'.

(** [c] relates every world it returns from to the world it ends in by [R]. *)
Definition preserves (R : World -> World -> Prop) (A : Type) (c : M A) : Prop :=
  forall w a w', c w = Ok (a, w') -> R w w'.

(** The device handle and the debug flag are kept, the trace only grows. *)
Definition device_kept (w w' : World) : Prop :=
  usingDebugHmd_ (this w') = usingDebugHmd_ (this w) /\
  hmd_ (this w') = hmd_ (this w) /\
  exists suffix, calls w' = calls w ++ suffix.

(** The handle the constructor ends up holding. *)
Definition acquired_hmd (r : CtorReplies) : ovrHmd :=
  if is_null (r_ovrHmd_Create r) then r_ovrHmd_CreateDebug r ovrHmd_DK1
  else r_ovrHmd_Create r.

(** The combined size [computeSizes()] derives for that handle. *)
Definition combined_size (r : CtorReplies) : ovrSizei :=
  let hmd := acquired_hmd r in
  let desc := r_ovrHmd_GetDesc r hmd in
  let left := ovrHmd_GetFovTextureSize hmd ovrEye_Left
                (at_index (DefaultEyeFov desc) 0) lit_1_0f in
  let right := ovrHmd_GetFovTextureSize hmd ovrEye_Right
                 (at_index (DefaultEyeFov desc) 1) lit_1_0f in
  mk_Sizei (CInt.add (Size_w left) (Size_w right))
           (if Size_h left >? Size_h right then Size_h left else Size_h right).

(** Every assertion of the constructor after the guard holds. *)
Definition assertions_hold (r : CtorReplies) : Prop :=
  is_null (acquired_hmd r) = false /\
  (Size_w (combined_size r) =? 0) = false /\
  (Size_h (combined_size r) =? 0) = false /\
  (r_glGenFramebuffers r =? 0) = false /\
  (r_glGenRenderbuffers r =? 0) = false /\
  r_framebuffer_complete r = true /\
  fst (r_SDL_GetWindowWMInfo r) = true /\
  fst (r_ovrHmd_ConfigureRendering r) = true.

(** The invariant of the singleton: the static flag is set exactly when
    there is a live instance, and there is never more than one. *)
Definition singleton (p : Process) : Prop :=
  (proc_alreadyCreated p = false /\ proc_live p = []) \/
  (proc_alreadyCreated p = true /\ exists o, proc_live p = [o]).

End Pipeline.

Arguments device_kept {ext T} w w'.
Arguments get_alreadyCreated {ext T} _.
Arguments process_start {ext T}.
Arguments op_delete {T} i.
Arguments op_render {T} i r.
Arguments op_getInput {T} i reply.
Arguments op_setAngles {T} i angles.

(** ** The constructor, read as a whole *)

Section Construction.

Context {ext : Externals} (T : Type) {scene_ops : Scene T}.

(** The sizes the runtime recommends for the handle the constructor holds. *)
Definition left_size (r : CtorReplies) : ovrSizei :=
  ovrHmd_GetFovTextureSize (acquired_hmd r) ovrEye_Left
    (at_index (DefaultEyeFov (r_ovrHmd_GetDesc r (acquired_hmd r))) 0) lit_1_0f.

Definition right_size (r : CtorReplies) : ovrSizei :=
  ovrHmd_GetFovTextureSize (acquired_hmd r) ovrEye_Right
    (at_index (DefaultEyeFov (r_ovrHmd_GetDesc r (acquired_hmd r))) 1) lit_1_0f.

(** The assertions of the constructor in the order the body reaches them;
    the first that fails, if any. *)
Definition first_failure_configure (r : CtorReplies) : option Failure :=
  if Size_w (combined_size r) =? 0 then Some assert_textureSize_w
  else if Size_h (combined_size r) =? 0 then Some assert_textureSize_h
  else if r_glGenFramebuffers r =? 0 then Some assert_FBOId
  else if r_glGenRenderbuffers r =? 0 then Some assert_depthBufferId
  else if r_framebuffer_complete r then
    if fst (r_SDL_GetWindowWMInfo r) then
      if fst (r_ovrHmd_ConfigureRendering r) then None
      else Some assert_configurationRes
    else Some assert_infoRes
  else Some assert_framebuffer_complete.

Definition first_failure (created : bool) (r : CtorReplies) : option Failure :=
  if created then Some assert_not_alreadyCreated
  else if is_null (acquired_hmd r) then Some assert_hmd
  else first_failure_configure r.

(** The eye texture header [setEyeTexture()] writes, for a viewport at [x]. *)
Definition eye_texture (size : ovrSizei) (tex : GLuint) (x : Z) : ovrGLTexture :=
  mk_GLTexture ovrRenderAPI_OpenGL size
    (mk_Recti (mk_Vector2i x 0) (mk_Sizei (CInt.div (Size_w size) 2) (Size_h size)))
    tex.

(** The members at the end of a construction that holds [debug] in
    [usingDebugHmd_]. *)
Definition configured_object (r : CtorReplies) (scene : T) (u : Uninitialised)
    (debug : bool) : Oculus T :=
  let size := combined_size r in
  let window := mk_Sizei (windowWidth scene) (windowHeight scene) in
  let desc := r_ovrHmd_GetDesc r (acquired_hmd r) in
  let info := snd (r_SDL_GetWindowWMInfo r) in
  mk_Oculus scene
    (r_glGenTextures r) (r_glGenFramebuffers r) (r_glGenRenderbuffers r)
    (acquired_hmd r) desc
    (snd (r_ovrHmd_ConfigureRendering r))
    (mk_array2 (eye_texture size (r_glGenTextures r) 0)
               (eye_texture size (r_glGenTextures r)
                  (CInt.div (CInt.add (Size_w size) 1) 2)))
    (mk_array2 (at_index (DefaultEyeFov desc) 0) (at_index (DefaultEyeFov desc) 1))
    (mk_GLConfig ovrRenderAPI_OpenGL window false (x11_window info) (x11_display info))
    window (left_size r) (right_size r) size
    (u_frameTiming u) (u_sensorState u)
    (mk_vec3 zero_f zero_f zero_f) (mk_vec3 zero_f zero_f zero_f)
    (Z.lor ovrDistortionCap_Chromatic ovrDistortionCap_TimeWarp)
    debug false.

Definition constructed_object (r : CtorReplies) (scene : T) (u : Uninitialised)
    : Oculus T :=
  configured_object r scene u (is_null (r_ovrHmd_Create r)).

(** The calls of the acquisition part. *)
Definition acquire_calls (r : CtorReplies) : list Event :=
  [logger_debug [log_text "Oculus constructor"]; ovr_Initialize; ovrHmd_Create 0] ++
  (if is_null (r_ovrHmd_Create r)
   then [ovrHmd_CreateDebug ovrHmd_DK1; logger_debug [log_text "Using the debug hmd"]]
   else []).

Definition computeSizes_calls (r : CtorReplies) : list Event :=
  [logger_debug
     [log_text "Fov: ";
      log_float (Utils_radToDegree
                   (c_two_atan
                      (UpTan (at_index
                                (DefaultEyeFov (r_ovrHmd_GetDesc r (acquired_hmd r)))
                                0))))]].

(** The calls of the configuration part, when no assertion fails. *)
Definition configure_calls (r : CtorReplies) (scene : T) (u : Uninitialised)
    (debug : bool) : list Event :=
  let size := combined_size r in
  let fbo := r_glGenFramebuffers r in
  let tex := r_glGenTextures r in
  let depth := r_glGenRenderbuffers r in
  let o := configured_object r scene u debug in
  [ovrHmd_GetDesc (acquired_hmd r)] ++
  computeSizes_calls r ++
  [gl glDisable [gl_enum GL_TEXTURE_2D];
   gl glEnable [gl_enum GL_DEPTH_TEST];
   (* initFBO *)
   gl glGenFramebuffers [gl_int 1];
   Utils_GLGetError;
   gl glBindFramebuffer [gl_enum GL_FRAMEBUFFER; gl_int fbo];
   Utils_GLGetError;
   (* initTexture *)
   gl glGenTextures [gl_int 1];
   gl glBindTexture [gl_enum GL_TEXTURE_2D; gl_int tex];
   gl glTexImage2D
      [gl_enum GL_TEXTURE_2D; gl_int 0; gl_enum GL_RGBA;
       gl_int (Size_w size); gl_int (Size_h size); gl_int 0;
       gl_enum GL_RGBA; gl_enum GL_UNSIGNED_BYTE; gl_int 0];
   gl glTexParameteri
      [gl_enum GL_TEXTURE_2D; gl_enum GL_TEXTURE_MAG_FILTER; gl_enum GL_LINEAR];
   gl glTexParameteri
      [gl_enum GL_TEXTURE_2D; gl_enum GL_TEXTURE_MIN_FILTER; gl_enum GL_LINEAR];
   Utils_GLGetError;
   (* initDepthBuffer *)
   gl glGenRenderbuffers [gl_int 1];
   Utils_GLGetError;
   gl glBindRenderbuffer [gl_enum GL_RENDERBUFFER; gl_int depth];
   Utils_GLGetError;
   gl glRenderbufferStorage
      [gl_enum GL_RENDERBUFFER; gl_enum GL_DEPTH_COMPONENT;
       gl_int (Size_w size); gl_int (Size_h size)];
   Utils_GLGetError;
   gl glFramebufferRenderbuffer
      [gl_enum GL_FRAMEBUFFER; gl_enum GL_DEPTH_ATTACHMENT;
       gl_enum GL_RENDERBUFFER; gl_int depth];
   Utils_GLGetError;
   gl glFramebufferTexture
      [gl_enum GL_FRAMEBUFFER; gl_enum GL_COLOR_ATTACHMENT0; gl_int tex; gl_int 0];
   Utils_GLGetError;
   gl glDrawBuffers [gl_int 1; gl_enum GL_COLOR_ATTACHMENT0];
   Utils_GLGetError;
   gl glCheckFramebufferStatus [gl_enum GL_DRAW_FRAMEBUFFER];
   gl glBindRenderbuffer [gl_enum GL_RENDERBUFFER; gl_int 0];
   gl glBindTexture [gl_enum GL_TEXTURE_2D; gl_int 0];
   gl glBindFramebuffer [gl_enum GL_FRAMEBUFFER; gl_int 0];
   Utils_GLGetError] ++
  computeSizes_calls r ++
  [SDL_GetWindowWMInfo (window scene);
   ovrHmd_ConfigureRendering (acquired_hmd r) (cfg_ o) (distortionCaps_ o) (eyeFov_ o);
   ovrHmd_StartSensor (acquired_hmd r)
     (Z.lor (Z.lor ovrSensorCap_Orientation ovrSensorCap_YawCorrection)
            ovrSensorCap_Position)
     ovrSensorCap_Orientation].

Definition ctor_calls (r : CtorReplies) (scene : T) (u : Uninitialised) : list Event :=
  acquire_calls r ++
  configure_calls r scene u (is_null (r_ovrHmd_Create r)).

(** The calls of the destructor on [o]. *)
Definition dtor_calls (o : Oculus T) : list Event :=
  [logger_debug [log_text "Oculus destructor"];
   gl glDeleteFramebuffers [gl_int 1; gl_int (FBOId_ o)];
   gl glDeleteTextures [gl_int 1; gl_int (textureId_ o)];
   gl glDeleteRenderbuffers [gl_int 1; gl_int (depthBufferId_ o)];
   ovrHmd_Destroy (hmd_ o);
   ovr_Shutdown].

(** The object after [getInput()] has received [reply]. *)
Definition sampled (reply : ovrSensorState) (o : Oculus T) : Oculus T :=
  if tracked (StatusFlags reply)
  then set_dAngles_ (vec3_sub (eulerAngles reply) (angles_ o))
         (set_angles_ (eulerAngles reply) (set_sensorState_ reply o))
  else set_sensorState_ reply o.

(** The calls of one frame on an object that ends as [o'], with [logs] the
    debug lines of the sample. *)
Definition frame_calls (o o' : Oculus T) (r : FrameReplies) (logs : list Event)
    : list Event :=
  unbind_calls ++
  [ovrHmd_BeginFrame (hmd_ o) 0] ++
  bind_and_clear o ++
  [ovrHmd_GetSensorState (hmd_ o) (ScanoutMidpointSeconds (r_ovrHmd_BeginFrame r))] ++
  logs ++
  eye_pass_calls o' r 0 ++
  eye_pass_calls o' r 1 ++
  [ovrHmd_EndFrame (hmd_ o)].

(** Kinds of calls, for counting them in a trace. *)
Definition is_ovr_Initialize (e : Event) : bool :=
  match e with ovr_Initialize => true | _ => false end.
Definition is_ovr_Shutdown (e : Event) : bool :=
  match e with ovr_Shutdown => true | _ => false end.
Definition is_ovrHmd_Create (e : Event) : bool :=
  match e with ovrHmd_Create _ => true | _ => false end.
Definition is_ovrHmd_CreateDebug (e : Event) : bool :=
  match e with ovrHmd_CreateDebug _ => true | _ => false end.
Definition is_ovrHmd_Destroy (e : Event) : bool :=
  match e with ovrHmd_Destroy _ => true | _ => false end.
Definition is_ovrHmd_StartSensor (e : Event) : bool :=
  match e with ovrHmd_StartSensor _ _ _ => true | _ => false end.

Definition GLfn_eqb (a b : GLfn) : bool :=
  match a, b with
  | glGenFramebuffers, glGenFramebuffers
  | glDeleteFramebuffers, glDeleteFramebuffers
  | glGenTextures, glGenTextures
  | glDeleteTextures, glDeleteTextures
  | glGenRenderbuffers, glGenRenderbuffers
  | glDeleteRenderbuffers, glDeleteRenderbuffers => true
  | _, _ => false
  end.

(** A call of the OpenGL entry point [fn] (one of the six above). *)
Definition is_gl (fn : GLfn) (e : Event) : bool :=
  match e with gl fn' _ => GLfn_eqb fn fn' | _ => false end.




End Construction.

(** ** A program with two instantiations of the template, and copies *)

Section Program.

Context {ext : Externals} (T U : Type) {scene_T : Scene T} {scene_U : Scene U}.

(** [alreadyCreated] is a static member of a class template: the definition
    at the end of the header gives every instantiation a flag of its own,
    so [Oculus<T>::alreadyCreated] and [Oculus<U>::alreadyCreated] are two
    variables. LibOVR, OpenGL and the logger belong to the program: the
    calls of both instantiations go to one trace. *)
Record Program : Type := mk_Program {
  prog_alreadyCreated_T : bool;
  prog_live_T : list (Oculus T);
  prog_alreadyCreated_U : bool;
  prog_live_U : list (Oculus U);
  prog_calls : list Event
}.

Definition program_start : Program := mk_Program false [] false [] [].

(** What the program is to one instantiation: its flag, its live objects
    and the trace so far. *)
Definition process_T (p : Program) : Process T :=
  mk_Process (prog_alreadyCreated_T p) (prog_live_T p) (prog_calls p).

Definition process_U (p : Program) : Process U :=
  mk_Process (prog_alreadyCreated_U p) (prog_live_U p) (prog_calls p).

Definition with_process_T (p : Program) (q : Process T) : Program :=
  mk_Program (proc_alreadyCreated q) (proc_live q)
    (prog_alreadyCreated_U p) (prog_live_U p) (proc_calls q).

Definition with_process_U (p : Program) (q : Process U) : Program :=
  mk_Program (prog_alreadyCreated_T p) (prog_live_T p)
    (proc_alreadyCreated q) (proc_live q) (proc_calls q).

(** [Oculus<T> b(a);] the class declares no copy constructor and deletes
    none, so the implicitly defined one copies every member of the [i]-th
    live object into a new object. It reads and writes no flag and calls
    nothing. Nothing happens when there is no [i]-th object. *)
Definition copy_nth (A : Type) (i : nat) (l : list A) : list A :=
  match nth_error l i with
  | Some a => l ++ [a]
  | None => l
  end.

Inductive ProgramOp : Type :=
| in_T (op : Op T)
| in_U (op : Op U)
| copy_T (i : nat)
| copy_U (i : nat).

Definition program_step (p : Program) (op : ProgramOp) : Outcome Program :=
  match op with
  | in_T op =>
      match step (process_T p) op with
      | Ok q => Ok (with_process_T p q)
      | Abort f => Abort f
      end
  | in_U op =>
      match step (process_U p) op with
      | Ok q => Ok (with_process_U p q)
      | Abort f => Abort f
      end
  | copy_T i =>
      Ok (mk_Program (prog_alreadyCreated_T p) (copy_nth i (prog_live_T p))
            (prog_alreadyCreated_U p) (prog_live_U p) (prog_calls p))
  | copy_U i =>
      Ok (mk_Program (prog_alreadyCreated_T p) (prog_live_T p)
            (prog_alreadyCreated_U p) (copy_nth i (prog_live_U p)) (prog_calls p))
  end.

Fixpoint program_run (p : Program) (ops : list ProgramOp) : Outcome Program :=
  match ops with
  | [] => Ok p
  | op :: ops' =>
      match program_step p op with
      | Ok p' => program_run p' ops'
      | Abort f => Abort f
      end
  end.

Definition is_copy (op : ProgramOp) : bool :=
  match op with
  | copy_T _ | copy_U _ => true
  | _ => false
  end.

(** Every object of the run was made by a constructor [Oculus(T & scene)]. *)
Definition no_copies (ops : list ProgramOp) : Prop :=
  Forall (fun op => is_copy op = false) ops.

(** The live objects of both instantiations. *)
Definition live_count (p : Program) : nat :=
  (List.length (prog_live_T p) + List.length (prog_live_U p))%nat.

(** The calls of kind [opens] made so far outnumber those of kind [closes]
    by the number of live objects. *)
Definition program_balanced (opens closes : Event -> bool) (p : Program) : Prop :=
  count opens (prog_calls p) = (count closes (prog_calls p) + live_count p)%nat.

(** Between two states [p] and [p'] of one instantiation, the calls of kind
    [opens] added exceed the calls of kind [closes] added by the number of
    live objects gained; written without subtraction. *)
Definition paired (opens closes : Event -> bool) (p p' : Process T) : Prop :=
  (count opens (proc_calls p') + count closes (proc_calls p) +
   List.length (proc_live p) =
   count opens (proc_calls p) + count closes (proc_calls p') +
   List.length (proc_live p'))%nat.

(** The five pairs of an acquiring and a releasing call. *)
Definition accounted (p p' : Process T) : Prop :=
  paired is_ovr_Initialize is_ovr_Shutdown p p' /\
  paired is_ovrHmd_Create is_ovrHmd_Destroy p p' /\
  paired (is_gl glGenFramebuffers) (is_gl glDeleteFramebuffers) p p' /\
  paired (is_gl glGenTextures) (is_gl glDeleteTextures) p p' /\
  paired (is_gl glGenRenderbuffers) (is_gl glDeleteRenderbuffers) p p'.

(** What every run without copies keeps true of the program. *)
Definition program_invariant (p : Program) : Prop :=
  singleton (process_T p) /\
  singleton (process_U p) /\
  program_balanced is_ovr_Initialize is_ovr_Shutdown p /\
  program_balanced is_ovrHmd_Create is_ovrHmd_Destroy p /\
  program_balanced (is_gl glGenFramebuffers) (is_gl glDeleteFramebuffers) p /\
  program_balanced (is_gl glGenTextures) (is_gl glDeleteTextures) p /\
  program_balanced (is_gl glGenRenderbuffers) (is_gl glDeleteRenderbuffers) p.

End Program.

Arguments program_start {ext T U}.
Arguments in_T {T U} op.
Arguments in_U {T U} op.
Arguments copy_T {T U} i.
Arguments copy_U {T U} i.

(** ** Concrete collaborators, for running the model on examples *)

Module Demo.

(** A stand-in for LibOVR and Utils: tracking bits 1 and 2, unit matrices,
    Euler angles read off the quaternion's first components, and a headset
    recommending 640 x 800 for the left eye and 641 x 790 for the right. *)
Definition externals : Externals := {|
  Matrix4f := unit;
  mat4 := unit;
  ovrStatus_OrientationTracked := 1;
  ovrStatus_PositionTracked := 2;
  ovrDistortionCap_Chromatic := 1;
  ovrDistortionCap_TimeWarp := 2;
  ovrSensorCap_Orientation := 16;
  ovrSensorCap_YawCorrection := 32;
  ovrSensorCap_Position := 64;
  ovrRenderAPI_OpenGL := 1;
  GetEulerAngles_YXZ := fun q => (q_x q, q_y q, q_z q);
  RadToDegree := fun f => f;
  Quatf_Inverted := fun q => q;
  Matrix4f_Translation := fun _ => tt;
  Matrix4f_of_Quatf := fun _ => tt;
  Matrix4f_mul := fun _ _ => tt;
  Matrix4f_Transposed := fun _ => tt;
  ovrMatrix4f_Projection := fun _ _ _ _ => tt;
  ovrHmd_GetFovTextureSize :=
    fun _ eye _ _ =>
      match eye with
      | ovrEye_Left => mk_Sizei 640 800
      | ovrEye_Right => mk_Sizei 641 790
      end;
  Utils_isEqual := fun a b => SFeqb a b;
  Utils_ovr2glmMat := fun _ => tt;
  Utils_radToDegree := fun f => f;
  c_two_atan := fun f => f
|}.

(** A scene with a 1280 x 800 window. *)
Definition scene : Scene unit := {|
  windowWidth := fun _ => 1280;
  windowHeight := fun _ => 800;
  window := fun _ => 1
|}.

Definition fov : ovrFovPort := mk_FovPort lit_1_0f lit_1_0f lit_1_0f lit_1_0f.
Definition quat0 : ovrQuatf := mk_Quatf zero_f zero_f zero_f lit_1_0f.
Definition vec0 : ovrVector3f := mk_Vector3f zero_f zero_f zero_f.
Definition pose0 : ovrPosef := mk_Posef quat0 vec0.

Definition desc : ovrHmdDesc :=
  mk_HmdDesc (mk_array2 fov fov) (mk_array2 ovrEye_Right ovrEye_Left).

Definition texture0 : ovrGLTexture :=
  mk_GLTexture 0 (mk_Sizei 0 0) (mk_Recti (mk_Vector2i 0 0) (mk_Sizei 0 0)) 0.

Definition uninitialised : Uninitialised :=
  mk_Uninitialised desc
    (mk_array2 (mk_EyeRenderDesc fov vec0) (mk_EyeRenderDesc fov vec0))
    (mk_array2 texture0 texture0)
    (mk_array2 fov fov)
    (mk_GLConfig 0 (mk_Sizei 0 0) false 0 0)
    (mk_FrameTiming zero_f)
    (mk_SensorState (mk_PoseStatef pose0) 0).

(** A freshly initialised object and a world around it. *)
Definition object : Oculus unit := initial_members tt uninitialised.

Definition world (o : Oculus unit) : World unit :=
  mk_World (ext := externals) false o [].

(** Replies of a machine without a headset ([real = 0]) or with one. *)
Definition replies (real debug : ovrHmd) : CtorReplies :=
  mk_CtorReplies real (fun _ => debug) (fun _ => desc) 1 2 3 true
    (true, mk_WMinfo 10 11)
    (true, mk_array2 (mk_EyeRenderDesc fov vec0) (mk_EyeRenderDesc fov vec0)).

(** The angles of the orientation-delta example, as binary32 values. *)
Definition previousAngles : vec3 :=
  mk_vec3 (F32.of_ratio 1 10) (F32.of_ratio 2 10) (F32.of_ratio 3 10).
Definition currentAngles : vec3 :=
  mk_vec3 (F32.of_ratio 15 100) (F32.of_ratio 18 100) (F32.of_ratio 3 10).

(** A sensor reply whose predicted orientation carries [currentAngles]. *)
Definition sample (flags : Z) : ovrSensorState :=
  mk_SensorState
    (mk_PoseStatef
       (mk_Posef (mk_Quatf (vec_x currentAngles) (vec_y currentAngles)
                           (vec_z currentAngles) lit_1_0f) vec0))
    flags.

(** A world whose object has the combined texture size [w] x [h]. *)
Definition world_sized (w h : Z) : World unit :=
  world (set_textureSize_ (mk_Sizei w h) object).

(** A world whose object holds [previousAngles]. *)
Definition world_tracking : World unit :=
  world (set_angles_ previousAngles object).

Definition frame : FrameReplies :=
  mk_FrameReplies (mk_FrameTiming lit_1_0f) (sample 1) (fun _ => pose0)
    (mk_array2 pose0 pose0).

(** A session: construct without a headset, render a frame, destroy,
    construct again with a headset. *)
Definition session : list (Op unit) :=
  [op_new tt uninitialised (replies 0 7);
   op_render 0 frame;
   op_delete 0;
   op_new tt uninitialised (replies 5 7)].

(** The process at the end of the session. *)
Definition session_end : Process unit :=
  Eval vm_compute in
    match run (ext := externals) (scene_ops := scene) process_start session with
    | Ok p => p
    | Abort _ => process_start
    end.

(** The world a construction without a headset ends in. *)
Definition constructed_world : World unit :=
  Eval vm_compute in
    match Oculus_ctor (ext := externals) (scene_ops := scene)
            (replies 0 7) (world object) with
    | Ok (_, w) => w
    | Abort _ => world object
    end.

(** The world after one frame on [constructed_world]. *)
Definition rendered_world : World unit :=
  Eval vm_compute in
    match render (ext := externals) frame constructed_world with
    | Ok (_, w) => w
    | Abort _ => constructed_world
    end.

(** A frame during which the runtime reports no tracking. *)
Definition idle_frame : FrameReplies :=
  mk_FrameReplies (mk_FrameTiming lit_1_0f) (sample 128) (fun _ => pose0)
    (mk_array2 pose0 pose0).

(** A world whose object already holds [currentAngles]. *)
Definition world_at_rest : World unit :=
  world (set_angles_ currentAngles object).

(** A second scene type, with a 1920 x 1080 window. *)
Definition panel : Scene bool := {|
  windowWidth := fun _ => 1920;
  windowHeight := fun _ => 1080;
  window := fun _ => 2
|}.

(** A program that constructs a pipeline for each of the two scene types:
    the first finds the headset, the second falls back to the debug device. *)
Definition two_pipelines : list (ProgramOp unit bool) :=
  [in_T (op_new tt uninitialised (replies 5 7));
   in_U (op_new true uninitialised (replies 0 8))].

(** The program after [two_pipelines]. *)
Definition two_pipelines_end : Program unit bool :=
  Eval vm_compute in
    match program_run (ext := externals) (scene_T := scene) (scene_U := panel)
            program_start two_pipelines with
    | Ok p => p
    | Abort _ => program_start
    end.

(** A program that constructs one pipeline, renders a frame, destroys the
    pipeline, and then constructs one for each scene type. *)
Definition program_session : list (ProgramOp unit bool) :=
  [in_T (op_new tt uninitialised (replies 0 7));
   in_T (op_render 0 frame);
   in_T (op_delete 0);
   in_U (op_new true uninitialised (replies 5 7));
   in_T (op_new tt uninitialised (replies 0 8))].

Definition program_session_end : Program unit bool :=
  Eval vm_compute in
    match program_run (ext := externals) (scene_T := scene) (scene_U := panel)
            program_start program_session with
    | Ok p => p
    | Abort _ => program_start
    end.

End Demo.

(** * Properties *)

Unset Implicit Arguments.

(** ** Arithmetic on [int] *)

Module CIntFacts.

Lemma wrap_in_range z : CInt.in_range z -> CInt.wrap z = z.
Proof.
  unfold CInt.in_range, CInt.INT_MIN, CInt.INT_MAX, CInt.wrap. intros H.
  rewrite Z.mod_small; lia.
Qed.

Lemma add_exact a b : CInt.in_range (a + b) -> CInt.add a b = a + b.
Proof. apply wrap_in_range. Qed.

Lemma div2_floor a : 0 <= a <= CInt.INT_MAX -> CInt.div a 2 = a / 2.
Proof.
  intros Ha. unfold CInt.div.
  rewrite Z.quot_div_nonneg by lia.
  apply wrap_in_range.
  unfold CInt.in_range, CInt.INT_MIN, CInt.INT_MAX in *.
  assert (0 <= a / 2) by (apply Z.div_pos; lia).
  assert (a / 2 <= a) by (apply Z.div_le_upper_bound; lia).
  lia.
Qed.

End CIntFacts.

Lemma ceil_half_succ w : ceil_half w = (w + 1) / 2.
Proof. unfold ceil_half. Z.div_mod_to_equations. lia. Qed.

Lemma floor_ceil_half w : floor_half w + ceil_half w = w.
Proof. unfold floor_half, ceil_half. Z.div_mod_to_equations. lia. Qed.

(** The literals have the values they denote. *)
Lemma lit_1_0f_value : (F32.to_Q lit_1_0f == 1)%Q.
Proof. vm_compute. reflexivity. Qed.

Lemma lit_10000_0f_value : (F32.to_Q lit_10000_0f == 10000)%Q.
Proof. vm_compute. reflexivity. Qed.

Lemma lit_0_01f_value : F32.within (1 # 1000000000) lit_0_01f (1 # 100).
Proof. unfold F32.within, Qle. vm_compute. discriminate. Qed.

Section Properties.

Context {ext : Externals} {T : Type} {scene_ops : Scene T}.

Implicit Types (o : Oculus T) (w : World T).

(** ** Running commands *)

Lemma bind_ok {A B : Type} {c : M T A} (k : A -> M T B) {w a w'} :
  c w = Ok (a, w') -> bind c k w = k a w'.
Proof. intros H. unfold bind. rewrite H. reflexivity. Qed.

Lemma bind_abort {A B : Type} {c : M T A} (k : A -> M T B) {w f} :
  c w = Abort f -> bind c k w = Abort f.
Proof. intros H. unfold bind. rewrite H. reflexivity. Qed.

Lemma bind_call {B : Type} (e : Event) (k : unit -> M T B) w :
  bind (call e) k w = k tt (mk_World (alreadyCreated w) (this w) (calls w ++ [e])).
Proof. reflexivity. Qed.

Lemma bind_get {A B : Type} (field : Oculus T -> A) (k : A -> M T B) w :
  bind (get field) k w = k (field (this w)) w.
Proof. reflexivity. Qed.

Lemma bind_assign {B : Type} (upd : Oculus T -> Oculus T) (k : unit -> M T B) w :
  bind (assign upd) k w = k tt (mk_World (alreadyCreated w) (upd (this w)) (calls w)).
Proof. reflexivity. Qed.

Lemma bind_assoc {A B C : Type} (c : M T A) (k1 : A -> M T B) (k2 : B -> M T C) w :
  bind (bind c k1) k2 w = bind c (fun a => bind (k1 a) k2) w.
Proof. unfold bind. destruct (c w) as [[a w'] | f]; reflexivity. Qed.

Lemma bind_ret {A B : Type} (a : A) (k : A -> M T B) w :
  bind (ret a) k w = k a w.
Proof. reflexivity. Qed.

Lemma bind_assert_true {B : Type} (f : Failure) (k : unit -> M T B) w :
  bind (assert true f) k w = k tt w.
Proof. reflexivity. Qed.

Lemma bind_assert_false {B : Type} (f : Failure) (k : unit -> M T B) w :
  bind (assert false f) k w = Abort f.
Proof. reflexivity. Qed.

Lemma bind_get_alreadyCreated {B : Type} (k : bool -> M T B) w :
  bind get_alreadyCreated k w = k (alreadyCreated w) w.
Proof. reflexivity. Qed.

(** One step of a command whose head is a primitive, found by its syntax. *)
Ltac run_step :=
  lazymatch goal with
  | |- context [bind (call ?e) ?k ?w] => rewrite (bind_call e k w)
  | |- context [bind (get ?f) ?k ?w] => rewrite (bind_get f k w)
  | |- context [bind (assign ?u) ?k ?w] => rewrite (bind_assign u k w)
  | |- context [bind (ret ?a) ?k ?w] => rewrite (bind_ret a k w)
  | |- context [bind get_alreadyCreated ?k ?w] => rewrite (bind_get_alreadyCreated k w)
  | |- context [bind (assert true ?f) ?k ?w] => rewrite (bind_assert_true f k w)
  | |- context [bind (assert false ?f) ?k ?w] => rewrite (bind_assert_false f k w)
  | |- context [bind (bind ?c ?k1) ?k2 ?w] => rewrite (bind_assoc c k1 k2 w)
  end;
  cbn [alreadyCreated this calls].

Ltac run_simple := repeat run_step.

(** ** isMoving *)

(** Once false, the accumulator stays false, whatever the axes hold. *)
Lemma isMoving_loop_false o i n : isMoving_loop o i n false = false.
Proof.
  revert i. induction n as [|n IH]; intros i; simpl.
  - reflexivity.
  - apply IH.
Qed.

(** C9: for every state of the current-angles and delta-angles members,
    [isMoving()] returns true: the accumulator seeded at false is still false
    after the three per-axis tests and the method returns its negation. *)
Theorem isMoving_always_true o : isMoving o = true.
Proof.
  unfold isMoving. rewrite isMoving_loop_false. reflexivity.
Qed.

(** ** setAngles *)

(** C10: [setAngles(angles)] assigns [angles_] and nothing else: every other
    member, the static flag and the call trace are as before; [dAngles_]
    keeps its old value whatever the new and old angles are. *)
Theorem setAngles_frame (a : vec3) w :
  exists o',
    setAngles a w = Ok (tt, mk_World (alreadyCreated w) o' (calls w)) /\
    angles_ o' = a /\
    dAngles_ o' = dAngles_ (this w) /\
    set_angles_ (angles_ (this w)) o' = this w /\
    (dAngles_ o' = vec3_sub a (angles_ (this w)) <->
     dAngles_ (this w) = vec3_sub a (angles_ (this w))).
Proof.
  destruct w as [created o tr]. destruct o. simpl.
  eexists. split; [reflexivity |]. simpl. repeat split; auto.
Qed.

(** ** Eye viewports *)

(** C1 (amended): for a combined texture size (W,H) with 0 <= W < INT_MAX,
    [setEyeTexture()] gives the left eye the viewport
    {0, 0, floor(W/2), H} and the right eye {ceil(W/2), 0, W - ceil(W/2), H};
    both have the width floor(W/2), they never overlap, the right one ends at
    W, and the widths add up to W - (W mod 2): to W only when W is even,
    the column floor(W/2) of an odd W belonging to neither eye. *)
Theorem setEyeTexture_viewports w :
  let W := Size_w (textureSize_ (this w)) in
  let H := Size_h (textureSize_ (this w)) in
  0 <= W < CInt.INT_MAX ->
  exists o',
    setEyeTexture w = Ok (tt, mk_World (alreadyCreated w) o' (calls w)) /\
    eyeViewport o' ovrEye_Left =
      mk_Recti (mk_Vector2i 0 0) (mk_Sizei (floor_half W) H) /\
    eyeViewport o' ovrEye_Right =
      mk_Recti (mk_Vector2i (ceil_half W) 0) (mk_Sizei (W - ceil_half W) H) /\
    W - ceil_half W = floor_half W /\
    0 + floor_half W <= ceil_half W /\
    ceil_half W + (W - ceil_half W) = W /\
    viewport_width_sum o' = W - W mod 2.
Proof.
  intros W H HW.
  destruct w as [created o tr]. destruct o as [? ? ? ? ? ? ? ? ? ? ? ? ? size ? ? ? ? ? ? ?].
  destruct size as [sw sh]. simpl in W, H. subst W H.
  unfold CInt.INT_MAX in HW.
  assert (Hfloor : CInt.div sw 2 = floor_half sw).
  { apply CIntFacts.div2_floor. unfold CInt.INT_MAX. lia. }
  assert (Hceil : CInt.div (CInt.add sw 1) 2 = ceil_half sw).
  { rewrite CIntFacts.add_exact
      by (unfold CInt.in_range, CInt.INT_MIN, CInt.INT_MAX; lia).
    rewrite CIntFacts.div2_floor by (unfold CInt.INT_MAX; lia).
    symmetry. apply ceil_half_succ. }
  assert (Hsplit : sw - ceil_half sw = floor_half sw).
  { pose proof (floor_ceil_half sw). lia. }
  cbn. eexists. split; [reflexivity |].
  unfold viewport_width_sum, eyeViewport. cbn.
  rewrite Hfloor, Hceil, Hsplit.
  repeat split; try reflexivity.
  - unfold floor_half, ceil_half. Z.div_mod_to_equations. lia.
  - lia.
  - unfold floor_half. Z.div_mod_to_equations. lia.
Qed.

(** ** Texture sizes *)

(** C3: with (wL,hL) and (wR,hR) the sizes the runtime recommends for the
    left eye and for the right eye, each asked for its own default field of
    view at pixel density 1.0, [computeSizes()] stores them and sets the
    combined size to (wL + wR, max(hL, hR)), the sum being an [int]. *)
Theorem computeSizes_combined w :
  let desc := hmdDesc_ (this w) in
  let left := ovrHmd_GetFovTextureSize (hmd_ (this w)) ovrEye_Left
                (at_index (DefaultEyeFov desc) 0) lit_1_0f in
  let right := ovrHmd_GetFovTextureSize (hmd_ (this w)) ovrEye_Right
                 (at_index (DefaultEyeFov desc) 1) lit_1_0f in
  CInt.in_range (Size_w left + Size_w right) ->
  exists o' log,
    computeSizes w = Ok (tt, mk_World (alreadyCreated w) o' (calls w ++ [logger_debug log])) /\
    textureSizeLeft_ o' = left /\
    textureSizeRight_ o' = right /\
    textureSize_ o' =
      mk_Sizei (Size_w left + Size_w right) (Z.max (Size_h left) (Size_h right)).
Proof.
  intros desc left right Hsum.
  destruct w as [created o tr]. destruct o.
  cbn -[lit_1_0f CInt.add Z.gtb] in *.
  eexists. eexists. split; [reflexivity |].
  cbn -[lit_1_0f CInt.add Z.gtb]. unfold with_h, with_w.
  cbn -[lit_1_0f CInt.add Z.gtb].
  subst desc left right.
  split; [reflexivity |]. split; [reflexivity |].
  f_equal.
  - apply CIntFacts.add_exact. exact Hsum.
  - match goal with
    | |- (if ?a >? ?b then _ else _) = _ => destruct (Z.gtb_spec a b); lia
    end.
Qed.

(** ** getInput *)

(** The status test is true exactly when one of the two tracking bits is set. *)
Lemma tracked_iff flags :
  tracked flags = true <->
  Z.land flags ovrStatus_OrientationTracked <> 0 \/
  Z.land flags ovrStatus_PositionTracked <> 0.
Proof.
  unfold tracked. rewrite negb_true_iff, Z.eqb_neq, Z.land_lor_distr_r.
  rewrite Z.lor_eq_0_iff.
  split.
  - intros H.
    destruct (Z.eq_dec (Z.land flags ovrStatus_OrientationTracked) 0) as [E|E];
      [right | left; exact E].
    intros E'. apply H. split; assumption.
  - intros [H|H] [E1 E2]; contradiction.
Qed.

Lemma untracked_iff flags :
  tracked flags = false <->
  Z.land flags ovrStatus_OrientationTracked = 0 /\
  Z.land flags ovrStatus_PositionTracked = 0.
Proof.
  unfold tracked. rewrite negb_false_iff, Z.eqb_eq, Z.land_lor_distr_r.
  apply Z.lor_eq_0_iff.
Qed.

(** The whole effect of [getInput()] on the tracking branch. *)
Lemma getInput_tracked reply w :
  tracked (StatusFlags reply) = true ->
  let now := eulerAngles reply in
  let delta := vec3_sub now (angles_ (this w)) in
  getInput reply w =
  Ok (tt, mk_World (alreadyCreated w)
            (set_dAngles_ delta (set_angles_ now (set_sensorState_ reply (this w))))
            (calls w ++
             ovrHmd_GetSensorState (hmd_ (this w))
               (ScanoutMidpointSeconds (frameTiming_ (this w)))
             :: angle_logs now delta)).
Proof.
  intros Htracked. destruct w as [created o tr]. destruct o.
  unfold getInput, eulerAngles, angle_logs, bind, get, assign, call.
  cbn -[tracked vec3_sub]. rewrite Htracked.
  destruct (GetEulerAngles_YXZ _) as [[a b] c].
  cbn -[vec3_sub]. repeat rewrite <- app_assoc. reflexivity.
Qed.

(** The whole effect of [getInput()] on the branch without tracking. *)
Lemma getInput_untracked reply w :
  tracked (StatusFlags reply) = false ->
  getInput reply w =
  Ok (tt, mk_World (alreadyCreated w)
            (set_sensorState_ reply (this w))
            (calls w ++
             [ovrHmd_GetSensorState (hmd_ (this w))
                (ScanoutMidpointSeconds (frameTiming_ (this w)));
              logger_debug [log_text "No input data (using debug hmd)"]])).
Proof.
  intros Hno. destruct w as [created o tr]. destruct o.
  unfold getInput, bind, get, assign, call.
  cbn -[tracked]. rewrite Hno.
  cbn. repeat rewrite <- app_assoc. reflexivity.
Qed.

(** C4: when the status flags of the sample show orientation or position
    tracking, [getInput()] stores the Euler angles (a, b, c) that
    [GetEulerAngles<Axis_Y, Axis_X, Axis_Z>] reads off the predicted
    orientation in [angles_], and sets each component of [dAngles_] to the
    IEEE-754 binary32 difference (precision 24, maximal exponent 128, round
    to nearest even) of the new angle and the angle held before. The angles
    stored are the previous angles of the next sample: its delta is the
    difference with (a, b, c). *)
Theorem getInput_tracked_delta reply w a b c :
  Z.land (StatusFlags reply) ovrStatus_OrientationTracked <> 0 \/
  Z.land (StatusFlags reply) ovrStatus_PositionTracked <> 0 ->
  GetEulerAngles_YXZ (Orientation (Pose (Predicted reply))) = (a, b, c) ->
  exists o' tr',
    getInput reply w = Ok (tt, mk_World (alreadyCreated w) o' tr') /\
    angles_ o' = mk_vec3 a b c /\
    dAngles_ o' =
      mk_vec3 (SFsub 24 128 a (vec_x (angles_ (this w))))
              (SFsub 24 128 b (vec_y (angles_ (this w))))
              (SFsub 24 128 c (vec_z (angles_ (this w)))) /\
    forall next a' b' c',
      Z.land (StatusFlags next) ovrStatus_OrientationTracked <> 0 \/
      Z.land (StatusFlags next) ovrStatus_PositionTracked <> 0 ->
      GetEulerAngles_YXZ (Orientation (Pose (Predicted next))) = (a', b', c') ->
      exists o'' tr'',
        getInput next (mk_World (alreadyCreated w) o' tr') =
          Ok (tt, mk_World (alreadyCreated w) o'' tr'') /\
        angles_ o'' = mk_vec3 a' b' c' /\
        dAngles_ o'' =
          mk_vec3 (SFsub 24 128 a' a) (SFsub 24 128 b' b) (SFsub 24 128 c' c).
Proof.
  intros Hflags Heuler. apply tracked_iff in Hflags.
  eexists. eexists. split; [apply (getInput_tracked _ w Hflags) |].
  unfold eulerAngles. rewrite Heuler.
  destruct w as [created o tr]. destruct o. cbn -[getInput SFsub].
  split; [reflexivity |]. split; [reflexivity |].
  intros next a' b' c' Hnext Heuler'. apply tracked_iff in Hnext.
  rewrite getInput_tracked by exact Hnext.
  unfold eulerAngles. rewrite Heuler'. cbn -[SFsub].
  eexists. eexists. split; [reflexivity |]. split; reflexivity.
Qed.

(** C7: when the status flags of the sample show neither orientation nor
    position tracking, [getInput()] returns normally, having only stored the
    sample and logged one debug line: [angles_] and [dAngles_] keep the
    values they had. *)
Theorem getInput_untracked_keeps_angles reply w :
  Z.land (StatusFlags reply) ovrStatus_OrientationTracked = 0 ->
  Z.land (StatusFlags reply) ovrStatus_PositionTracked = 0 ->
  exists o',
    getInput reply w =
      Ok (tt, mk_World (alreadyCreated w) o'
                (calls w ++
                 [ovrHmd_GetSensorState (hmd_ (this w))
                    (ScanoutMidpointSeconds (frameTiming_ (this w)));
                  logger_debug [log_text "No input data (using debug hmd)"]])) /\
    angles_ o' = angles_ (this w) /\
    dAngles_ o' = dAngles_ (this w) /\
    o' = set_sensorState_ reply (this w).
Proof.
  intros H1 H2.
  assert (Hno : tracked (StatusFlags reply) = false)
    by (apply untracked_iff; split; assumption).
  eexists. split; [apply (getInput_untracked _ w Hno) |].
  destruct w as [created o tr]. destruct o. cbn. repeat split.
Qed.

(** ** render *)

Lemma at_eye_set_eye {A : Type} (a : array2 A) (e : ovrEyeType) (v : A) :
  at_eye (set_eye a e v) e = v.
Proof. destruct e; reflexivity. Qed.

Lemma count_app (p : Event -> bool) (l1 l2 : list Event) :
  count p (l1 ++ l2) = (count p l1 + count p l2)%nat.
Proof. unfold count. rewrite filter_app, length_app. reflexivity. Qed.

(** A list of debug lines holds no call of another kind. *)
Lemma count_in_logs (p : Event -> bool) (logs : list Event) :
  (forall msg, p (logger_debug msg) = false) ->
  forallb is_logger_debug logs = true ->
  count p logs = 0%nat.
Proof.
  intros Hp. unfold count.
  induction logs as [|e logs IH]; intros Hall; simpl in *.
  - reflexivity.
  - apply andb_true_iff in Hall. destruct Hall as [He Hall].
    destruct e; try discriminate He.
    rewrite Hp. apply IH. exact Hall.
Qed.

(** One pass of the loop of [render()] makes the calls of [eye_pass_calls]
    and changes neither the object nor the static flag. *)
Lemma eye_pass_run r i (poses : array2 ovrPosef) w :
  exists poses',
    eye_pass r i poses w =
    Ok (poses', mk_World (alreadyCreated w) (this w)
                  (calls w ++ eye_pass_calls (this w) r i)).
Proof.
  destruct w as [created o tr]. destruct o.
  unfold eye_pass, eye_pass_calls, eyeViewport, bind, get, assign, call, ret.
  cbn -[lit_0_01f lit_10000_0f at_eye set_eye at_index].
  repeat rewrite at_eye_set_eye.
  repeat rewrite <- app_assoc. cbn -[lit_0_01f lit_10000_0f at_eye set_eye at_index].
  eexists. reflexivity.
Qed.

(** [getInput()] always returns; it leaves the static flag and every member
    read by the eye passes alone, and makes exactly one sensor query followed
    by debug lines. *)
Lemma getInput_run reply w :
  exists o' logs,
    getInput reply w =
      Ok (tt, mk_World (alreadyCreated w) o'
                (calls w ++
                 ovrHmd_GetSensorState (hmd_ (this w))
                   (ScanoutMidpointSeconds (frameTiming_ (this w))) :: logs)) /\
    forallb is_logger_debug logs = true /\
    frameTiming_ o' = frameTiming_ (this w) /\
    hmd_ o' = hmd_ (this w) /\
    FBOId_ o' = FBOId_ (this w) /\
    hmdDesc_ o' = hmdDesc_ (this w) /\
    eyeTexture_ o' = eyeTexture_ (this w) /\
    eyeRenderDesc_ o' = eyeRenderDesc_ (this w).
Proof.
  destruct (tracked (StatusFlags reply)) eqn:E.
  - eexists. eexists. split; [apply (getInput_tracked _ w E) |].
    destruct w as [created o tr]. destruct o. cbn. repeat split.
  - eexists. eexists. split; [apply (getInput_untracked _ w E) |].
    destruct w as [created o tr]. destruct o. cbn. repeat split.
Qed.

(** What one call of [render()] does. *)
Lemma render_run r w :
  exists o' logs frame,
    render r w = Ok (tt, mk_World (alreadyCreated w) o' (calls w ++ frame)) /\
    frame =
      unbind_calls ++
      [ovrHmd_BeginFrame (hmd_ (this w)) 0] ++
      bind_and_clear (this w) ++
      [ovrHmd_GetSensorState (hmd_ (this w))
         (ScanoutMidpointSeconds (r_ovrHmd_BeginFrame r))] ++
      logs ++
      eye_pass_calls o' r 0 ++
      eye_pass_calls o' r 1 ++
      [ovrHmd_EndFrame (hmd_ (this w))] /\
    forallb is_logger_debug logs = true /\
    frameTiming_ o' = r_ovrHmd_BeginFrame r.
Proof.
  destruct w as [created o tr].
  destruct (getInput_run (r_ovrHmd_GetSensorState r)
              (mk_World created (set_frameTiming_ (r_ovrHmd_BeginFrame r) o)
                 (tr ++ unbind_calls ++ [ovrHmd_BeginFrame (hmd_ o) 0] ++ bind_and_clear o)))
    as (o1 & logs & Hrun & Hlogs & Htiming & Hhmd & Hfbo & Hdesc & Htex & Hrd).
  assert (Hset : forall v, hmd_ (set_frameTiming_ v o) = hmd_ o /\
                           FBOId_ (set_frameTiming_ v o) = FBOId_ o /\
                           frameTiming_ (set_frameTiming_ v o) = v)
    by (intros v; destruct o; repeat split).
  destruct (Hset (r_ovrHmd_BeginFrame r)) as (Hs1 & Hs2 & Hs3).
  cbn [alreadyCreated this calls] in *.
  rewrite Hs1 in *. rewrite Hs3 in *.
  exists o1, logs. eexists. split; [| split; [reflexivity |]].
  - unfold render. run_simple. rewrite Hs2.
    unfold unbind_calls, bind_and_clear in Hrun.
    repeat rewrite <- app_assoc. cbn [app].
    repeat rewrite <- app_assoc in Hrun. cbn [app] in Hrun.
    rewrite (bind_ok _ Hrun).
    unfold ovrEye_Count, for_eyes. repeat rewrite bind_assoc.
    match goal with
    | |- context [bind (eye_pass ?r ?i ?p) _ ?w1] =>
        destruct (eye_pass_run r i p w1) as (p1 & Hp1);
        rewrite (bind_ok _ Hp1)
    end.
    repeat rewrite bind_assoc.
    match goal with
    | |- context [bind (eye_pass ?r ?i ?p) _ ?w1] =>
        destruct (eye_pass_run r i p w1) as (p2 & Hp2);
        rewrite (bind_ok _ Hp2)
    end.
    run_simple. unfold call. cbn [alreadyCreated this calls].
    rewrite Hhmd. repeat rewrite <- app_assoc. cbn [app]. reflexivity.
  - split; [exact Hlogs | exact Htiming].
Qed.


(** ** Commands that keep the device *)

Lemma device_kept_refl w : device_kept w w.
Proof.
  unfold device_kept. repeat split. exists []. symmetry. apply app_nil_r.
Qed.

Lemma device_kept_trans w1 w2 w3 :
  device_kept w1 w2 -> device_kept w2 w3 -> device_kept w1 w3.
Proof.
  intros (Hd1 & Hh1 & s1 & Hc1) (Hd2 & Hh2 & s2 & Hc2).
  unfold device_kept. rewrite Hd2, Hh2, Hc2, Hc1.
  repeat split; try assumption.
  exists (s1 ++ s2). symmetry. apply app_assoc.
Qed.

Lemma keeps_bind {A B : Type} (c : M T A) (k : A -> M T B) :
  preserves device_kept c ->
  (forall a, preserves device_kept (k a)) ->
  preserves device_kept (bind c k).
Proof.
  intros Hc Hk w b w' H. unfold bind in H.
  destruct (c w) as [[a w1] | f] eqn:E; [| discriminate H].
  eapply device_kept_trans; [eapply Hc; exact E | eapply Hk; exact H].
Qed.

Lemma keeps_ret {A : Type} (a : A) : preserves device_kept (ret (T := T) a).
Proof. intros w a' w' H. inversion H. apply device_kept_refl. Qed.

Lemma keeps_get {A : Type} (field : Oculus T -> A) : preserves device_kept (get field).
Proof. intros w a' w' H. inversion H. apply device_kept_refl. Qed.

Lemma keeps_call (e : Event) : preserves device_kept (call (T := T) e).
Proof.
  intros w a' w' H. inversion H. unfold device_kept. cbn.
  repeat split. exists [e]. reflexivity.
Qed.

Lemma keeps_assert (cond : bool) (f : Failure) : preserves device_kept (assert (T := T) cond f).
Proof.
  intros w a' w' H. unfold assert in H.
  destruct cond; inversion H. apply device_kept_refl.
Qed.

Lemma keeps_set_alreadyCreated (b : bool) : preserves device_kept (set_alreadyCreated (T := T) b).
Proof.
  intros w a' w' H. inversion H. unfold device_kept. cbn.
  repeat split. exists []. symmetry. apply app_nil_r.
Qed.

Lemma keeps_assign (upd : Oculus T -> Oculus T) :
  (forall o, usingDebugHmd_ (upd o) = usingDebugHmd_ o /\ hmd_ (upd o) = hmd_ o) ->
  preserves device_kept (assign upd).
Proof.
  intros Hupd w a' w' H. inversion H. unfold device_kept. cbn.
  destruct (Hupd (this w)) as [Hd Hh].
  repeat split; try assumption. exists []. symmetry. apply app_nil_r.
Qed.

Lemma keeps_if {A : Type} (b : bool) (c1 c2 : M T A) :
  preserves device_kept c1 -> preserves device_kept c2 ->
  preserves device_kept (if b then c1 else c2).
Proof. destruct b; auto. Qed.

(** Decompose a command along its syntax. *)
Ltac keeps :=
  repeat lazymatch goal with
    | |- preserves _ (bind _ _) => apply keeps_bind; [| intros ?]
    | |- preserves _ (ret _) => apply keeps_ret
    | |- preserves _ (get _) => apply keeps_get
    | |- preserves _ (call _) => apply keeps_call
    | |- preserves _ (assert _ _) => apply keeps_assert
    | |- preserves _ (set_alreadyCreated _) => apply keeps_set_alreadyCreated
    | |- preserves _ (assign _) =>
        apply keeps_assign; intros [ ]; split; reflexivity
    | |- preserves _ (if _ then _ else _) => apply keeps_if
    | |- preserves _ (let '(_, _) := ?p in _) => destruct p
    end.

Lemma computeSizes_keeps_device : preserves device_kept (computeSizes (T := T)).
Proof. unfold computeSizes. keeps. Qed.

Lemma setOpenGLState_keeps_device : preserves device_kept (setOpenGLState (T := T)).
Proof. unfold setOpenGLState. keeps. Qed.

Lemma initFBO_keeps_device r : preserves device_kept (initFBO (T := T) r).
Proof. unfold initFBO. keeps. Qed.

Lemma initTexture_keeps_device r : preserves device_kept (initTexture (T := T) r).
Proof. unfold initTexture. keeps. Qed.

Lemma initDepthBuffer_keeps_device r : preserves device_kept (initDepthBuffer (T := T) r).
Proof. unfold initDepthBuffer. keeps. Qed.

Lemma setCfg_keeps_device r : preserves device_kept (setCfg (T := T) r).
Proof. unfold setCfg. keeps. Qed.

Lemma setEyeTexture_keeps_device : preserves device_kept (setEyeTexture (T := T)).
Proof. unfold setEyeTexture. keeps. Qed.

(** Everything after the acquisition keeps the handle and the debug flag. *)
Lemma Oculus_ctor_configure_keeps_device r :
  preserves device_kept (Oculus_ctor_configure (T := T) r).
Proof.
  unfold Oculus_ctor_configure.
  keeps.
  - apply computeSizes_keeps_device.
  - apply setOpenGLState_keeps_device.
  - apply initFBO_keeps_device.
  - apply initTexture_keeps_device.
  - apply initDepthBuffer_keeps_device.
  - apply computeSizes_keeps_device.
  - apply setCfg_keeps_device.
  - apply setEyeTexture_keeps_device.
Qed.

(** ** Construction and destruction *)

Lemma post_bind_last {A B : Type} (c : M T A) (k : A -> M T B) w
    (Q : B -> World T -> Prop) :
  (forall a w1, post (k a) w1 Q) -> post (bind c k) w Q.
Proof.
  intros Hk b w' H. unfold bind in H.
  destruct (c w) as [[a w1] | f]; [| discriminate H].
  eapply Hk. exact H.
Qed.

(** A construction that completes has set the static flag. *)
Lemma Oculus_ctor_configure_sets_flag r w :
  post (Oculus_ctor_configure r) w (fun _ w' => alreadyCreated w' = true).
Proof.
  unfold Oculus_ctor_configure.
  repeat (apply post_bind_last; intros).
  destruct (r_ovrHmd_ConfigureRendering r) as [configurationRes eyeRenderDesc].
  repeat (apply post_bind_last; intros).
  intros a' w' H. inversion H. reflexivity.
Qed.

(** The guard: construction aborts at once when the flag is set. *)
Lemma Oculus_ctor_acquire_guard r w :
  alreadyCreated w = true ->
  Oculus_ctor_acquire r w = Abort assert_not_alreadyCreated.
Proof.
  intros H. unfold Oculus_ctor_acquire. run_step. rewrite H. cbn [negb].
  run_step. reflexivity.
Qed.

(** A headset is found: its handle is kept, nothing else changes. *)
Lemma Oculus_ctor_acquire_real r w :
  alreadyCreated w = false ->
  is_null (r_ovrHmd_Create r) = false ->
  Oculus_ctor_acquire r w =
  Ok (tt, mk_World false (set_hmd_ (r_ovrHmd_Create r) (this w))
            (calls w ++ [logger_debug [log_text "Oculus constructor"];
                         ovr_Initialize; ovrHmd_Create 0])).
Proof.
  intros Hflag Hreal. destruct w as [created o tr]. destruct o.
  cbn in Hflag. subst created.
  unfold Oculus_ctor_acquire. run_simple. cbn [negb]. run_simple.
  cbn [hmd_ set_hmd_]. rewrite Hreal.
  unfold ret. repeat rewrite <- app_assoc. reflexivity.
Qed.

(** No headset, but the debug device is created. *)
Lemma Oculus_ctor_acquire_debug r w :
  alreadyCreated w = false ->
  is_null (r_ovrHmd_Create r) = true ->
  is_null (r_ovrHmd_CreateDebug r ovrHmd_DK1) = false ->
  Oculus_ctor_acquire r w =
  Ok (tt, mk_World false
            (set_usingDebugHmd_ true
               (set_hmd_ (r_ovrHmd_CreateDebug r ovrHmd_DK1) (this w)))
            (calls w ++ [logger_debug [log_text "Oculus constructor"];
                         ovr_Initialize; ovrHmd_Create 0;
                         ovrHmd_CreateDebug ovrHmd_DK1;
                         logger_debug [log_text "Using the debug hmd"]])).
Proof.
  intros Hflag Hreal Hdebug. destruct w as [created o tr]. destruct o.
  cbn in Hflag. subst created.
  unfold Oculus_ctor_acquire. run_simple. cbn [negb]. run_simple.
  cbn [hmd_ set_hmd_]. rewrite Hreal. run_simple.
  cbn [hmd_ set_hmd_ set_usingDebugHmd_]. rewrite Hdebug. cbn [negb].
  run_simple. unfold call. cbn [alreadyCreated this calls].
  repeat rewrite <- app_assoc. reflexivity.
Qed.

(** Neither a headset nor a debug device. *)
Lemma Oculus_ctor_acquire_none r w :
  alreadyCreated w = false ->
  is_null (r_ovrHmd_Create r) = true ->
  is_null (r_ovrHmd_CreateDebug r ovrHmd_DK1) = true ->
  Oculus_ctor_acquire r w = Abort assert_hmd.
Proof.
  intros Hflag Hreal Hdebug. destruct w as [created o tr]. destruct o.
  cbn in Hflag. subst created.
  unfold Oculus_ctor_acquire. run_simple. cbn [negb]. run_simple.
  cbn [hmd_ set_hmd_]. rewrite Hreal. run_simple.
  cbn [hmd_ set_hmd_ set_usingDebugHmd_]. rewrite Hdebug. cbn [negb].
  run_simple. reflexivity.
Qed.

Lemma Oculus_ctor_guard r w :
  alreadyCreated w = true -> Oculus_ctor r w = Abort assert_not_alreadyCreated.
Proof.
  intros H. unfold Oculus_ctor. apply bind_abort.
  apply Oculus_ctor_acquire_guard. exact H.
Qed.

(** A completed construction started with the flag clear and set it. *)
Lemma Oculus_ctor_flag r w w' :
  Oculus_ctor r w = Ok (tt, w') ->
  alreadyCreated w = false /\ alreadyCreated w' = true.
Proof.
  intros H. split.
  - destruct (alreadyCreated w) eqn:E; [| reflexivity].
    rewrite (Oculus_ctor_guard r w E) in H. discriminate H.
  - unfold Oculus_ctor in H.
    pose proof (post_bind_last (Oculus_ctor_acquire r)
                  (fun _ => Oculus_ctor_configure r) w
                  (fun _ w' => alreadyCreated w' = true)
                  (fun _ w1 => Oculus_ctor_configure_sets_flag r w1)) as Hp.
    exact (Hp tt w' H).
Qed.

(** The destructor always returns, with the flag cleared. *)
Lemma Oculus_dtor_run w :
  exists tr', Oculus_dtor w = Ok (tt, mk_World false (this w) tr').
Proof.
  unfold Oculus_dtor. run_simple. unfold set_alreadyCreated.
  eexists. reflexivity.
Qed.

Ltac norm_object :=
  cbn [alreadyCreated this calls
       scene_ textureId_ FBOId_ depthBufferId_ hmd_ hmdDesc_ eyeRenderDesc_
       eyeTexture_ eyeFov_ cfg_ windowSize_ textureSizeLeft_ textureSizeRight_
       textureSize_ frameTiming_ sensorState_ angles_ dAngles_ distortionCaps_
       usingDebugHmd_ multisampleEnabled_
       set_textureId_ set_FBOId_ set_depthBufferId_ set_hmd_ set_hmdDesc_
       set_eyeRenderDesc_ set_eyeTexture_ set_eyeFov_ set_cfg_ set_windowSize_
       set_textureSizeLeft_ set_textureSizeRight_ set_textureSize_
       set_frameTiming_ set_sensorState_ set_angles_ set_dAngles_
       set_distortionCaps_ set_usingDebugHmd_
       with_w with_h Size_w Size_h negb fst snd].

(** The configuration part returns when its assertions hold, with the flag
    set, the device untouched and the combined size stored. *)
Lemma Oculus_ctor_configure_completes r scene u tr debug :
  assertions_hold r ->
  exists w',
    Oculus_ctor_configure r
      (mk_World false
         (set_usingDebugHmd_ debug (set_hmd_ (acquired_hmd r) (initial_members scene u)))
         tr) = Ok (tt, w') /\
    alreadyCreated w' = true /\
    textureSize_ (this w') = combined_size r.
Proof.
  intros (Hhmd & Hw & Hh & Hfbo & Hdepth & Hcomplete & Hinfo & Hconf).
  unfold combined_size in *. cbn [Size_w Size_h] in Hw, Hh.
  destruct (r_SDL_GetWindowWMInfo r) as [infoRes info] eqn:Einfo.
  destruct (r_ovrHmd_ConfigureRendering r) as [configurationRes descs] eqn:Econf.
  cbn [fst] in Hinfo, Hconf. subst infoRes configurationRes.
  unfold Oculus_ctor_configure, computeSizes, setOpenGLState, initFBO,
    initTexture, initDepthBuffer, setCfg, setEyeTexture, initial_members.
  norm_object.
  repeat first [ run_step; norm_object
               | rewrite Hw; norm_object
               | rewrite Hh; norm_object
               | rewrite Hfbo; norm_object
               | rewrite Hdepth; norm_object
               | rewrite Hcomplete; norm_object
               | rewrite Einfo; norm_object
               | rewrite Econf; norm_object ].
  unfold set_alreadyCreated. norm_object.
  eexists. split; [reflexivity |]. norm_object. split; reflexivity.
Qed.

(** A construction whose assertions hold completes. *)
Lemma Oculus_ctor_completes r scene u tr :
  assertions_hold r ->
  exists w',
    Oculus_ctor r (mk_World false (initial_members scene u) tr) = Ok (tt, w') /\
    alreadyCreated w' = true /\
    textureSize_ (this w') = combined_size r.
Proof.
  intros Hall. pose proof Hall as (Hhmd & _).
  unfold Oculus_ctor, acquired_hmd in *.
  destruct (is_null (r_ovrHmd_Create r)) eqn:Hreal.
  - rewrite (bind_ok _ (Oculus_ctor_acquire_debug r
                         (mk_World false (initial_members scene u) tr)
                         eq_refl Hreal Hhmd)).
    cbn [this calls].
    destruct (Oculus_ctor_configure_completes r scene u
                (tr ++ [logger_debug [log_text "Oculus constructor"];
                        ovr_Initialize; ovrHmd_Create 0;
                        ovrHmd_CreateDebug ovrHmd_DK1;
                        logger_debug [log_text "Using the debug hmd"]])
                true Hall) as (w' & Hrun & Hrest).
    unfold acquired_hmd in Hrun. rewrite Hreal in Hrun.
    exists w'. split; [exact Hrun | exact Hrest].
  - rewrite (bind_ok _ (Oculus_ctor_acquire_real r
                         (mk_World false (initial_members scene u) tr)
                         eq_refl Hreal)).
    cbn [this calls].
    destruct (Oculus_ctor_configure_completes r scene u
                (tr ++ [logger_debug [log_text "Oculus constructor"];
                        ovr_Initialize; ovrHmd_Create 0])
                false Hall) as (w' & Hrun & Hrest).
    unfold acquired_hmd in Hrun. rewrite Hreal in Hrun.
    exists w'. split; [exact Hrun | exact Hrest].
Qed.

(** C6: a construction entered with the flag clear. If [ovrHmd_Create]
    returns a handle, that handle is kept and [isUsingDebugHmd()] is false
    on the constructed object. If it returns null, a debug device of model
    DK1 is created; when that succeeds its handle is kept and
    [isUsingDebugHmd()] is true on the constructed object; when that fails
    too, the construction aborts on [assert(hmd_)]. The construction does
    complete whenever the assertions after the guard hold. *)
Theorem Oculus_ctor_debug_fallback r scene u tr :
  let w0 := mk_World false (initial_members scene u) tr in
  let debug := r_ovrHmd_CreateDebug r ovrHmd_DK1 in
  (r_ovrHmd_Create r = 0 -> debug = 0 ->
   Oculus_ctor r w0 = Abort assert_hmd) /\
  (r_ovrHmd_Create r = 0 -> debug <> 0 ->
   (exists w1,
      Oculus_ctor_acquire r w0 = Ok (tt, w1) /\
      In (ovrHmd_CreateDebug ovrHmd_DK1) (calls w1) /\
      hmd_ (this w1) = debug /\
      isUsingDebugHmd (this w1) = true) /\
   (forall w',
      Oculus_ctor r w0 = Ok (tt, w') ->
      In (ovrHmd_CreateDebug ovrHmd_DK1) (calls w') /\
      hmd_ (this w') = debug /\
      isUsingDebugHmd (this w') = true)) /\
  (r_ovrHmd_Create r <> 0 ->
   (exists w1,
      Oculus_ctor_acquire r w0 = Ok (tt, w1) /\
      hmd_ (this w1) = r_ovrHmd_Create r /\
      isUsingDebugHmd (this w1) = false) /\
   (forall w',
      Oculus_ctor r w0 = Ok (tt, w') ->
      hmd_ (this w') = r_ovrHmd_Create r /\
      isUsingDebugHmd (this w') = false)) /\
  (assertions_hold r -> exists w', Oculus_ctor r w0 = Ok (tt, w')).
Proof.
  intros w0 debug.
  assert (Hflag : alreadyCreated w0 = false) by reflexivity.
  split; [| split; [| split]].
  - intros Hreal Hdebug. unfold Oculus_ctor. apply bind_abort.
    apply Oculus_ctor_acquire_none; try assumption; apply Z.eqb_eq; assumption.
  - intros Hreal Hdebug.
    apply Z.eqb_eq in Hreal. apply Z.eqb_neq in Hdebug.
    pose proof (Oculus_ctor_acquire_debug r w0 Hflag Hreal Hdebug) as Hacq.
    split.
    + eexists. split; [exact Hacq |]. cbn [this calls alreadyCreated].
      split; [| split; reflexivity].
      apply in_or_app. right. simpl. tauto.
    + intros w' H. unfold Oculus_ctor in H.
      rewrite (bind_ok _ Hacq) in H.
      destruct (Oculus_ctor_configure_keeps_device r _ _ _ H) as (Hd & Hh & suffix & Hc).
      unfold isUsingDebugHmd. rewrite Hd, Hh, Hc. cbn [this calls alreadyCreated].
      split; [| split; reflexivity].
      apply in_or_app. left. apply in_or_app. right. simpl. tauto.
  - intros Hreal. apply Z.eqb_neq in Hreal.
    pose proof (Oculus_ctor_acquire_real r w0 Hflag Hreal) as Hacq.
    split.
    + eexists. split; [exact Hacq |]. split; reflexivity.
    + intros w' H. unfold Oculus_ctor in H.
      rewrite (bind_ok _ Hacq) in H.
      destruct (Oculus_ctor_configure_keeps_device r _ _ _ H) as (Hd & Hh & _).
      unfold isUsingDebugHmd. rewrite Hd, Hh. split; reflexivity.
  - intros Hall.
    destruct (Oculus_ctor_completes r scene u tr Hall) as (w' & Hrun & _).
    exists w'. exact Hrun.
Qed.

(** ** The singleton *)

Lemma singleton_start : singleton (process_start (T := T)).
Proof. left. split; reflexivity. Qed.

(** A method that leaves the static flag alone keeps the invariant. *)
Lemma on_instance_singleton (method : M T unit) p i p' :
  (forall w a w', method w = Ok (a, w') -> alreadyCreated w' = alreadyCreated w) ->
  singleton p -> on_instance p i method = Ok p' -> singleton p'.
Proof.
  intros Hflag Hinv H. unfold on_instance in H.
  destruct (nth_error (proc_live p) i) as [o|] eqn:Hnth.
  - destruct (method _) as [[a w'] | f] eqn:E; [| discriminate H].
    inversion H; subst p'; clear H.
    apply Hflag in E. cbn in E.
    destruct Hinv as [[Hf Hl] | [Hf [o0 Hl]]].
    + rewrite Hl in Hnth. destruct i; discriminate Hnth.
    + right. cbn. split; [congruence |].
      rewrite Hl in *. destruct i as [|i]; cbn.
      * eexists. reflexivity.
      * destruct i; discriminate Hnth.
  - inversion H; subst p'. exact Hinv.
Qed.

Lemma step_singleton p op p' :
  singleton p -> step p op = Ok p' -> singleton p'.
Proof.
  intros Hinv H. destruct op as [scene u r | i | i r | i reply | i a]; cbn [step] in H.
  - destruct (Oculus_ctor r _) as [[[] w'] | f] eqn:E; [| discriminate H].
    inversion H; subst p'; clear H.
    apply Oculus_ctor_flag in E. destruct E as [Hbefore Hafter]. cbn in Hbefore.
    destruct Hinv as [[Hf Hl] | [Hf _]]; [| congruence].
    right. cbn. split; [exact Hafter |]. rewrite Hl. eexists. reflexivity.
  - unfold on_instance in H.
    destruct (nth_error (proc_live p) i) as [o|] eqn:Hnth.
    + destruct (Oculus_dtor_run (mk_World (proc_alreadyCreated p) o (proc_calls p)))
        as [tr' Hrun].
      rewrite Hrun in H. cbn in H. inversion H; subst p'; clear H.
      destruct Hinv as [[Hf Hl] | [Hf [o0 Hl]]].
      * rewrite Hl in Hnth. destruct i; discriminate Hnth.
      * left. cbn. split; [reflexivity |].
        rewrite Hl in *. destruct i as [|i]; [reflexivity |].
        destruct i; discriminate Hnth.
    + inversion H; subst p'; clear H. cbn.
      destruct Hinv as [[Hf Hl] | [Hf [o0 Hl]]].
      * left. split; [exact Hf |]. rewrite Hl. destruct i; reflexivity.
      * right. split; [exact Hf |]. rewrite Hl in *.
        destruct i as [|i]; [discriminate Hnth |]. cbn.
        destruct i; eexists; reflexivity.
  - apply (on_instance_singleton (render r) p i); try assumption.
    intros w a w' E.
    destruct (render_run r w) as (o' & logs & frame & Hrun & _).
    rewrite Hrun in E. inversion E. reflexivity.
  - apply (on_instance_singleton (getInput reply) p i); try assumption.
    intros w a w' E.
    destruct (getInput_run reply w) as (o' & logs & Hrun & _).
    rewrite Hrun in E. inversion E. reflexivity.
  - apply (on_instance_singleton (setAngles a) p i); try assumption.
    intros w a0 w' E. inversion E. reflexivity.
Qed.

Lemma run_singleton ops : forall p p',
  singleton p -> run p ops = Ok p' -> singleton p'.
Proof.
  induction ops as [|op ops IH]; intros p p' Hinv H; cbn [run] in H.
  - inversion H; subst. exact Hinv.
  - destruct (step p op) as [p1 | f] eqn:E; [| discriminate H].
    eapply IH; [| exact H]. eapply step_singleton; eassumption.
Qed.

End Properties.


(** * Further properties of the header *)

(** The stepping tactics, for the proofs below. *)
Ltac exec_step :=
  lazymatch goal with
  | |- context [bind (call ?e) ?k ?w] => rewrite (bind_call e k w)
  | |- context [bind (get ?f) ?k ?w] => rewrite (bind_get f k w)
  | |- context [bind (assign ?u) ?k ?w] => rewrite (bind_assign u k w)
  | |- context [bind (ret ?a) ?k ?w] => rewrite (bind_ret a k w)
  | |- context [bind get_alreadyCreated ?k ?w] => rewrite (bind_get_alreadyCreated k w)
  | |- context [bind (assert true ?f) ?k ?w] => rewrite (bind_assert_true f k w)
  | |- context [bind (assert false ?f) ?k ?w] => rewrite (bind_assert_false f k w)
  | |- context [bind (bind ?c ?k1) ?k2 ?w] => rewrite (bind_assoc c k1 k2 w)
  end;
  cbn [alreadyCreated this calls].

Ltac exec := repeat exec_step.

Ltac norm :=
  cbn [alreadyCreated this calls
       scene_ textureId_ FBOId_ depthBufferId_ hmd_ hmdDesc_ eyeRenderDesc_
       eyeTexture_ eyeFov_ cfg_ windowSize_ textureSizeLeft_ textureSizeRight_
       textureSize_ frameTiming_ sensorState_ angles_ dAngles_ distortionCaps_
       usingDebugHmd_ multisampleEnabled_
       set_textureId_ set_FBOId_ set_depthBufferId_ set_hmd_ set_hmdDesc_
       set_eyeRenderDesc_ set_eyeTexture_ set_eyeFov_ set_cfg_ set_windowSize_
       set_textureSizeLeft_ set_textureSizeRight_ set_textureSize_
       set_frameTiming_ set_sensorState_ set_angles_ set_dAngles_
       set_distortionCaps_ set_usingDebugHmd_
       with_w with_h Size_w Size_h negb fst snd].

Section Lifecycle.

Context {ext : Externals} {T : Type} {scene_ops : Scene T}.

Implicit Types (o : Oculus T) (w : World T).

(** The configuration part of the constructor, evaluated: it aborts on the
    first assertion that fails and otherwise ends in [configured_object]. *)
Lemma Oculus_ctor_configure_eval r scene u tr debug :
  Oculus_ctor_configure r
    (mk_World false
       (set_usingDebugHmd_ debug (set_hmd_ (acquired_hmd r) (initial_members scene u)))
       tr) =
  match first_failure_configure r with
  | Some f => Abort f
  | None =>
      Ok (tt, mk_World true (configured_object r scene u debug)
                (tr ++ configure_calls r scene u debug))
  end.
Proof.
  unfold first_failure_configure, configure_calls, computeSizes_calls,
    configured_object, eye_texture, left_size, right_size, combined_size.
  cbn [Size_w Size_h].
  destruct (r_SDL_GetWindowWMInfo r) as [infoRes info] eqn:Einfo.
  destruct (r_ovrHmd_ConfigureRendering r) as [configurationRes descs] eqn:Econf.
  unfold Oculus_ctor_configure, computeSizes, setOpenGLState, initFBO,
    initTexture, initDepthBuffer, setCfg, setEyeTexture, initial_members.
  norm.
  repeat first
    [ exec_step; norm
    | rewrite Einfo; norm
    | rewrite Econf; norm
    | lazymatch goal with
      | |- context [bind (assert (negb ?c) ?f) ?k ?w] => destruct c eqn:?
      | |- context [bind (assert ?c ?f) ?k ?w] => destruct c eqn:?
      end;
      norm;
      lazymatch goal with
      | |- _ = Abort _ => exec; reflexivity
      | |- _ => idtac
      end ].
  unfold set_alreadyCreated. norm.
  repeat rewrite <- app_assoc. cbn [app].
  reflexivity.
Qed.

(** The whole constructor, evaluated from the member initialiser list. *)
Lemma Oculus_ctor_eval r scene u created tr :
  Oculus_ctor r (mk_World created (initial_members scene u) tr) =
  match first_failure created r with
  | Some f => Abort f
  | None =>
      Ok (tt, mk_World true (constructed_object r scene u)
                (tr ++ ctor_calls r scene u))
  end.
Proof.
  unfold first_failure. destruct created.
  - apply Oculus_ctor_guard. reflexivity.
  - unfold Oculus_ctor, constructed_object, ctor_calls, acquire_calls.
    pose proof (Oculus_ctor_configure_eval r scene u) as Hconf.
    unfold acquired_hmd in *.
    destruct (is_null (r_ovrHmd_Create r)) eqn:Hreal.
    + destruct (is_null (r_ovrHmd_CreateDebug r ovrHmd_DK1)) eqn:Hdebug.
      * apply bind_abort. apply Oculus_ctor_acquire_none; assumption || reflexivity.
      * rewrite (bind_ok _ (Oculus_ctor_acquire_debug r
                              (mk_World false (initial_members scene u) tr)
                              eq_refl Hreal Hdebug)).
        cbn [this calls]. rewrite Hconf.
        destruct (first_failure_configure r); [reflexivity |].
        repeat rewrite <- app_assoc. reflexivity.
    + rewrite (bind_ok _ (Oculus_ctor_acquire_real r
                            (mk_World false (initial_members scene u) tr)
                            eq_refl Hreal)).
      cbn [this calls].
      change (set_hmd_ (r_ovrHmd_Create r) (initial_members scene u))
        with (set_usingDebugHmd_ false
                (set_hmd_ (r_ovrHmd_Create r) (initial_members scene u))).
      rewrite Hconf. rewrite Hreal.
      destruct (first_failure_configure r); [reflexivity |].
      repeat rewrite <- app_assoc. reflexivity.
Qed.

(** X1: the constructor aborts exactly on the first assertion that fails,
    taken in the order the body reaches them (singleton guard, device
    handle, texture width, texture height, framebuffer id, depth buffer id,
    framebuffer status, window information, rendering configuration), and
    completes exactly when none fails. *)
Theorem Oculus_ctor_first_failure r scene u created tr :
  let w0 := mk_World created (initial_members scene u) tr in
  (forall f, Oculus_ctor r w0 = Abort f <-> first_failure created r = Some f) /\
  ((exists w', Oculus_ctor r w0 = Ok (tt, w')) <-> first_failure created r = None).
Proof.
  intros w0. unfold w0. rewrite Oculus_ctor_eval.
  destruct (first_failure created r) as [f0 |].
  - split.
    + intros f. split; intros H; inversion H; reflexivity.
    + split; [intros [w' H]; discriminate H | intros H; discriminate H].
  - split.
    + intros f. split; intros H; discriminate H.
    + split; [reflexivity |]. intros _. eexists. reflexivity.
Qed.

(** X2: a construction that completes was entered with the flag clear, has
    set it, and leaves the members of [constructed_object]: the generated
    ids, the acquired handle and its description, the recommended sizes and
    their combination, the window size (also in [cfg_]), eye texture headers
    on the generated texture, the default fields of view, zero angles, and
    [frameTiming_] and [sensorState_] as indeterminate as they were. Its
    calls are those of [ctor_calls], in that order. *)
Theorem Oculus_ctor_postcondition r scene u created tr w' :
  Oculus_ctor r (mk_World created (initial_members scene u) tr) = Ok (tt, w') ->
  created = false /\
  alreadyCreated w' = true /\
  this w' = constructed_object r scene u /\
  calls w' = tr ++ ctor_calls r scene u.
Proof.
  intros H. rewrite Oculus_ctor_eval in H.
  unfold first_failure in H.
  destruct created; [discriminate H |].
  destruct (is_null (acquired_hmd r)); [discriminate H |].
  destruct (first_failure_configure r); [discriminate H |].
  inversion H. repeat split.
Qed.

(** X3: the destructor of a constructed object releases what the
    constructor obtained: it deletes the framebuffer, the texture and the
    render buffer under the ids the three glGen calls returned, destroys the
    handle that was acquired, shuts the runtime down and clears the flag;
    the members are left as they were. *)
Theorem Oculus_dtor_releases_constructed r scene u tr w1 :
  Oculus_ctor r (mk_World false (initial_members scene u) tr) = Ok (tt, w1) ->
  Oculus_dtor w1 =
  Ok (tt, mk_World false (this w1)
            (calls w1 ++
             [logger_debug [log_text "Oculus destructor"];
              gl glDeleteFramebuffers [gl_int 1; gl_int (r_glGenFramebuffers r)];
              gl glDeleteTextures [gl_int 1; gl_int (r_glGenTextures r)];
              gl glDeleteRenderbuffers [gl_int 1; gl_int (r_glGenRenderbuffers r)];
              ovrHmd_Destroy (acquired_hmd r);
              ovr_Shutdown])).
Proof.
  intros H. rewrite Oculus_ctor_eval in H.
  destruct (first_failure false r); [discriminate H |].
  inversion H; subst w1; clear H.
  unfold Oculus_dtor. exec. unfold set_alreadyCreated.
  cbn [alreadyCreated this calls constructed_object configured_object
       FBOId_ textureId_ depthBufferId_ hmd_].
  repeat rewrite <- app_assoc. reflexivity.
Qed.

(** X4: the device calls of a completed construction: the runtime is
    initialised once and never shut down, [ovrHmd_Create] is called once,
    [ovrHmd_CreateDebug] once when that returned null and never when it
    returned a handle, no handle is destroyed, and the sensors are started
    once, as the last call, on the handle that was acquired. *)
Theorem Oculus_ctor_device_calls r scene u tr w' :
  Oculus_ctor r (mk_World false (initial_members scene u) tr) = Ok (tt, w') ->
  exists new before,
    calls w' = tr ++ new /\
    new = before ++
          [ovrHmd_StartSensor (acquired_hmd r)
             (Z.lor (Z.lor ovrSensorCap_Orientation ovrSensorCap_YawCorrection)
                    ovrSensorCap_Position)
             ovrSensorCap_Orientation] /\
    count is_ovr_Initialize new = 1%nat /\
    count is_ovr_Shutdown new = 0%nat /\
    count is_ovrHmd_Create new = 1%nat /\
    count is_ovrHmd_CreateDebug new =
      (if r_ovrHmd_Create r =? 0 then 1%nat else 0%nat) /\
    count is_ovrHmd_Destroy new = 0%nat /\
    count is_ovrHmd_StartSensor new = 1%nat.
Proof.
  intros H. rewrite Oculus_ctor_eval in H.
  destruct (first_failure false r); [discriminate H |].
  inversion H; subst w'; clear H.
  exists (ctor_calls r scene u), (removelast (ctor_calls r scene u)).
  split; [reflexivity |].
  unfold ctor_calls, acquire_calls, configure_calls, computeSizes_calls, is_null.
  destruct (r_ovrHmd_Create r =? 0); cbn [app];
    (split; [reflexivity |]); repeat split; reflexivity.
Qed.


(** ** Frames and samples, evaluated *)

Lemma sampled_keeps reply o :
  hmd_ (sampled reply o) = hmd_ o /\
  frameTiming_ (sampled reply o) = frameTiming_ o /\
  sensorState_ (sampled reply o) = reply.
Proof.
  unfold sampled. destruct (tracked (StatusFlags reply)); destruct o; repeat split.
Qed.

(** [getInput()] always returns, in [sampled]. *)
Lemma getInput_eval reply w :
  exists logs,
    getInput reply w =
      Ok (tt, mk_World (alreadyCreated w) (sampled reply (this w))
                (calls w ++
                 ovrHmd_GetSensorState (hmd_ (this w))
                   (ScanoutMidpointSeconds (frameTiming_ (this w))) :: logs)) /\
    forallb is_logger_debug logs = true.
Proof.
  unfold sampled. destruct (tracked (StatusFlags reply)) eqn:E.
  - rewrite (getInput_tracked reply w E). eexists. split; reflexivity.
  - rewrite (getInput_untracked reply w E). eexists. split; reflexivity.
Qed.

(** [render()] always returns, with the object sampled under the timing of
    this frame. *)
Lemma render_eval r w :
  let o' := sampled (r_ovrHmd_GetSensorState r)
              (set_frameTiming_ (r_ovrHmd_BeginFrame r) (this w)) in
  exists logs,
    render r w =
      Ok (tt, mk_World (alreadyCreated w) o'
                (calls w ++ frame_calls (this w) o' r logs)) /\
    forallb is_logger_debug logs = true.
Proof.
  intros o'. subst o'. unfold frame_calls. destruct w as [created o tr].
  destruct (getInput_eval (r_ovrHmd_GetSensorState r)
              (mk_World created (set_frameTiming_ (r_ovrHmd_BeginFrame r) o)
                 (tr ++ unbind_calls ++ [ovrHmd_BeginFrame (hmd_ o) 0] ++ bind_and_clear o)))
    as (logs & Hrun & Hlogs).
  destruct (sampled_keeps (r_ovrHmd_GetSensorState r)
              (set_frameTiming_ (r_ovrHmd_BeginFrame r) o)) as (Hhmd & _ & _).
  assert (Hset : forall v, hmd_ (set_frameTiming_ v o) = hmd_ o /\
                           FBOId_ (set_frameTiming_ v o) = FBOId_ o /\
                           frameTiming_ (set_frameTiming_ v o) = v)
    by (intros v; destruct o; repeat split).
  destruct (Hset (r_ovrHmd_BeginFrame r)) as (Hs1 & Hs2 & Hs3).
  cbn [alreadyCreated this calls] in *.
  rewrite Hs1 in *. rewrite Hs3 in *.
  exists logs. split; [| exact Hlogs].
  unfold render. exec. rewrite Hs2.
  unfold unbind_calls, bind_and_clear in Hrun.
  repeat rewrite <- app_assoc. cbn [app].
  repeat rewrite <- app_assoc in Hrun. cbn [app] in Hrun.
  rewrite (bind_ok _ Hrun).
  unfold ovrEye_Count, for_eyes. repeat rewrite bind_assoc.
  match goal with
  | |- context [bind (eye_pass ?r ?i ?p) _ ?w1] =>
      destruct (eye_pass_run r i p w1) as (p1 & Hp1);
      rewrite (bind_ok _ Hp1)
  end.
  repeat rewrite bind_assoc.
  match goal with
  | |- context [bind (eye_pass ?r ?i ?p) _ ?w1] =>
      destruct (eye_pass_run r i p w1) as (p2 & Hp2);
      rewrite (bind_ok _ Hp2)
  end.
  exec. unfold call. cbn [alreadyCreated this calls].
  rewrite Hhmd. repeat rewrite <- app_assoc. cbn [app]. reflexivity.
Qed.

(** X6: [render()] keeps the static flag and every member of the object
    except [frameTiming_] and [sensorState_], which receive the replies of
    BeginFrame and of the sensor query, and [angles_] and [dAngles_]: the
    ids, the handle, the sizes, the eye textures, the configuration and the
    debug flag are as before the frame. *)
Theorem render_frame_effect r w w' :
  render r w = Ok (tt, w') ->
  alreadyCreated w' = alreadyCreated w /\
  frameTiming_ (this w') = r_ovrHmd_BeginFrame r /\
  sensorState_ (this w') = r_ovrHmd_GetSensorState r /\
  this w' =
    set_dAngles_ (dAngles_ (this w'))
      (set_angles_ (angles_ (this w'))
         (set_sensorState_ (r_ovrHmd_GetSensorState r)
            (set_frameTiming_ (r_ovrHmd_BeginFrame r) (this w)))).
Proof.
  intros H. destruct (render_eval r w) as (logs & Hrun & _).
  rewrite Hrun in H. inversion H; subst w'; clear H Hrun.
  cbn [alreadyCreated this]. unfold sampled.
  destruct w as [created o tr]. destruct o. cbn [this].
  destruct (tracked (StatusFlags (r_ovrHmd_GetSensorState r))); repeat split.
Qed.

(** A finite float minus itself is +0. *)
Lemma F32_sub_diag (x : float) : F32.is_finite x = true -> F32.sub x x = zero_f.
Proof.
  destruct x as [s | s | | s m e]; cbn; intros H; try discriminate H.
  - destruct s; reflexivity.
  - unfold F32.sub, SFsub. rewrite Z.sub_diag. reflexivity.
Qed.

(** X9: a tracked sample that reports the angles already stored, all
    finite, sets [dAngles_] to (+0, +0, +0) and keeps [angles_]; on the
    resulting object, at rest, [isMoving()] still answers true. *)
Theorem getInput_stationary reply w :
  tracked (StatusFlags reply) = true ->
  eulerAngles reply = angles_ (this w) ->
  F32.is_finite (vec_x (angles_ (this w))) = true ->
  F32.is_finite (vec_y (angles_ (this w))) = true ->
  F32.is_finite (vec_z (angles_ (this w))) = true ->
  exists o' tr',
    getInput reply w = Ok (tt, mk_World (alreadyCreated w) o' tr') /\
    angles_ o' = angles_ (this w) /\
    dAngles_ o' = mk_vec3 zero_f zero_f zero_f /\
    isMoving o' = true.
Proof.
  intros Htracked Hsame Hx Hy Hz.
  rewrite (getInput_tracked reply w Htracked).
  eexists. eexists. split; [reflexivity |].
  rewrite Hsame. destruct w as [created o tr]. destruct o as
    [? ? ? ? ? ? ? ? ? ? ? ? ? ? ? ? a ? ? ? ?].
  cbn [this angles_ dAngles_ set_angles_ set_dAngles_ set_sensorState_] in *.
  split; [reflexivity |]. split.
  - unfold vec3_sub. rewrite !F32_sub_diag by assumption. reflexivity.
  - unfold isMoving. rewrite isMoving_loop_false. reflexivity.
Qed.

(** X10: [getInput()] called on a constructed object before any
    [render()] queries the sensor of the acquired handle at the scan-out
    midpoint found in [frameTiming_], a member the constructor never
    assigns: the time passed is the indeterminate one the object was
    created with. *)
Theorem getInput_before_first_render r scene u tr w1 reply :
  Oculus_ctor r (mk_World false (initial_members scene u) tr) = Ok (tt, w1) ->
  exists o' logs,
    getInput reply w1 =
      Ok (tt, mk_World true o'
                (calls w1 ++
                 ovrHmd_GetSensorState (acquired_hmd r)
                   (ScanoutMidpointSeconds (u_frameTiming u)) :: logs)) /\
    forallb is_logger_debug logs = true.
Proof.
  intros H. rewrite Oculus_ctor_eval in H.
  destruct (first_failure false r); [discriminate H |].
  inversion H; subst w1; clear H.
  destruct (getInput_eval reply
              (mk_World true (constructed_object r scene u)
                 (tr ++ ctor_calls r scene u))) as (logs & Hrun & Hlogs).
  eexists. exists logs. split; [exact Hrun | exact Hlogs].
Qed.

(** ** The process *)

(** The destructor, evaluated. *)
Lemma Oculus_dtor_eval w :
  Oculus_dtor w = Ok (tt, mk_World false (this w) (calls w ++ dtor_calls (this w))).
Proof.
  unfold Oculus_dtor, dtor_calls. exec. unfold set_alreadyCreated.
  cbn [alreadyCreated this calls]. repeat rewrite <- app_assoc. reflexivity.
Qed.

(** What a method call on the [i]-th instance amounts to. *)
Lemma on_instance_inv (method : M T unit) p i p' :
  on_instance p i method = Ok p' ->
  (nth_error (proc_live p) i = None /\ p' = p) \/
  (exists o w',
     nth_error (proc_live p) i = Some o /\
     method (mk_World (proc_alreadyCreated p) o (proc_calls p)) = Ok (tt, w') /\
     p' = mk_Process (alreadyCreated w') (replace_nth i (this w') (proc_live p))
            (calls w')).
Proof.
  unfold on_instance. intros H.
  destruct (nth_error (proc_live p) i) as [o |].
  - right. destruct (method _) as [[[] w'] | f] eqn:E; [| discriminate H].
    exists o, w'. inversion H. split; [reflexivity |]. split; [exact E | reflexivity].
  - left. inversion H. split; reflexivity.
Qed.

Lemma length_replace_nth {A : Type} (i : nat) (v : A) (l : list A) :
  List.length (replace_nth i v l) = List.length l.
Proof.
  revert i. induction l as [| a l IH]; intros [| i]; cbn; try reflexivity.
  rewrite IH. reflexivity.
Qed.

Lemma length_remove_nth {A : Type} (i : nat) (l : list A) (a : A) :
  nth_error l i = Some a ->
  S (List.length (remove_nth i l)) = List.length l.
Proof.
  revert i. induction l as [| b l IH]; intros [| i] H; cbn in *; try discriminate H.
  - reflexivity.
  - rewrite (IH i H). reflexivity.
Qed.

Lemma remove_nth_none {A : Type} (i : nat) (l : list A) :
  nth_error l i = None -> remove_nth i l = l.
Proof.
  revert i. induction l as [| b l IH]; intros [| i] H; cbn in *;
    try reflexivity; try discriminate H.
  rewrite (IH i H). reflexivity.
Qed.

Lemma nth_error_replace_nth {A : Type} (i : nat) (v a : A) (l : list A) :
  nth_error l i = Some a -> nth_error (replace_nth i v l) i = Some v.
Proof.
  revert i. induction l as [| b l IH]; intros [| i] H; cbn in *; try discriminate H.
  - reflexivity.
  - apply IH. exact H.
Qed.

Ltac count_calls :=
  repeat rewrite count_app;
  repeat match goal with
    | Hlogs : forallb is_logger_debug ?logs = true |- context [count ?p ?logs] =>
        rewrite (count_in_logs p logs (fun _ => eq_refl) Hlogs)
    end;
  cbn.


(** Every step an instantiation survives is accounted for: whatever the
    state it starts from (any flag, any number of live objects, any trace),
    the acquiring calls it adds exceed the releasing calls it adds by the
    number of live objects it adds. *)
Lemma step_accounted p op p' : step p op = Ok p' -> accounted p p'.
Proof.
  unfold accounted, paired. intros H.
  destruct op as [scene u r | i | i r | i reply | i a]; cbn [step] in H.
  - rewrite Oculus_ctor_eval in H.
    destruct (first_failure (proc_alreadyCreated p) r); [discriminate H |].
    inversion H; subst p'; clear H. cbn [proc_calls proc_live].
    rewrite length_app. cbn [List.length].
    unfold ctor_calls, acquire_calls, configure_calls, computeSizes_calls.
    destruct (is_null (r_ovrHmd_Create r)); count_calls; lia.
  - destruct (on_instance p i _) as [p1 | f] eqn:E; [| discriminate H].
    inversion H; subst p'; clear H. cbn [proc_calls proc_live].
    apply on_instance_inv in E.
    destruct E as [[Hnone Hp1] | (o & w' & Hsome & Hrun & Hp1)]; subst p1.
    + rewrite (remove_nth_none i _ Hnone). lia.
    + rewrite Oculus_dtor_eval in Hrun. inversion Hrun; subst w'; clear Hrun.
      cbn [proc_calls proc_live alreadyCreated this calls].
      pose proof (length_remove_nth i _ o
                    (nth_error_replace_nth i o o _ Hsome)) as Hlen.
      rewrite length_replace_nth in Hlen.
      unfold dtor_calls. count_calls. lia.
  - apply on_instance_inv in H.
    destruct H as [[Hnone Hp1] | (o & w' & Hsome & Hrun & Hp1)]; subst p'.
    + lia.
    + destruct (render_eval r (mk_World (proc_alreadyCreated p) o (proc_calls p)))
        as (logs & Heval & Hlogs).
      rewrite Heval in Hrun. inversion Hrun; subst w'; clear Hrun Heval.
      cbn [proc_calls proc_live alreadyCreated this calls].
      rewrite length_replace_nth.
      unfold frame_calls, unbind_calls, bind_and_clear, eye_pass_calls.
      count_calls. lia.
  - apply on_instance_inv in H.
    destruct H as [[Hnone Hp1] | (o & w' & Hsome & Hrun & Hp1)]; subst p'.
    + lia.
    + destruct (getInput_eval reply (mk_World (proc_alreadyCreated p) o (proc_calls p)))
        as (logs & Heval & Hlogs).
      rewrite Heval in Hrun. inversion Hrun; subst w'; clear Hrun Heval.
      cbn [proc_calls proc_live alreadyCreated this calls].
      rewrite length_replace_nth.
      change (?x :: logs) with ([x] ++ logs).
      count_calls. lia.
  - apply on_instance_inv in H.
    destruct H as [[Hnone Hp1] | (o & w' & Hsome & Hrun & Hp1)]; subst p'.
    + lia.
    + inversion Hrun; subst w'; clear Hrun.
      cbn [proc_calls proc_live alreadyCreated this calls].
      rewrite length_replace_nth. lia.
Qed.



(** X11: destroying the only instance re-arms the constructor. The
    destructor clears the flag and leaves no instance; a construction that
    follows, with replies under which no assertion fails, completes with
    [constructed_object] as the only live instance and the flag set. *)
Theorem release_then_reacquire p o scene u r :
  proc_live p = [o] ->
  first_failure false r = None ->
  exists p1,
    step p (op_delete 0) = Ok p1 /\
    proc_alreadyCreated p1 = false /\
    proc_live p1 = [] /\
    proc_calls p1 = proc_calls p ++ dtor_calls o /\
    step p1 (op_new scene u r) =
      Ok (mk_Process true [constructed_object r scene u]
            (proc_calls p1 ++ ctor_calls r scene u)).
Proof.
  intros Hlive Hpass. destruct p as [created live tr]. cbn in Hlive. subst live.
  eexists. split.
  - cbn [step on_instance proc_live nth_error proc_alreadyCreated proc_calls].
    rewrite Oculus_dtor_eval. cbn. reflexivity.
  - cbn [proc_alreadyCreated proc_live proc_calls step].
    rewrite Oculus_ctor_eval. rewrite Hpass.
    repeat split.
Qed.


(** X7: frames rendered while the runtime reports no tracking, however
    many, leave [angles_] and [dAngles_] of the instance as they were. *)
Theorem untracked_frames_keep_angles rs : forall p o,
  proc_live p = [o] ->
  Forall (fun r => tracked (StatusFlags (r_ovrHmd_GetSensorState r)) = false) rs ->
  exists p' o',
    run p (map (op_render 0) rs) = Ok p' /\
    proc_live p' = [o'] /\
    proc_alreadyCreated p' = proc_alreadyCreated p /\
    angles_ o' = angles_ o /\
    dAngles_ o' = dAngles_ o.
Proof.
  induction rs as [| r rs IH]; intros p o Hlive Hall.
  - exists p, o. repeat split. exact Hlive.
  - inversion Hall as [| r' rs' Hr Hrs]; subst.
    destruct p as [created live tr]. cbn in Hlive. subst live.
    cbn [map run step on_instance proc_live nth_error proc_alreadyCreated proc_calls].
    destruct (render_eval r (mk_World created o tr)) as (logs & Heval & _).
    rewrite Heval. cbn [alreadyCreated this calls replace_nth].
    unfold sampled. rewrite Hr.
    match goal with
    | |- context [run ?p1 _] =>
        destruct (IH p1 _ eq_refl Hrs) as (p' & o' & Hrun & Hl & Hf & Ha & Hd)
    end.
    exists p', o'. split; [exact Hrun |]. split; [exact Hl |].
    split; [exact Hf |].
    rewrite Ha, Hd. destruct o; split; reflexivity.
Qed.

Lemma Ok_world_inj (w1 w2 : World T) : Ok (tt, w1) = Ok (tt, w2) -> w1 = w2.
Proof. intros H. injection H as H. exact H. Qed.

(** X14: construct, then render: the calls of the frame are, in this
    order, the unbinding, BeginFrame, binding and clearing the framebuffer
    the constructor generated, the sensor query with its debug lines, the
    pass of the eye the runtime lists first, the pass of the eye it lists
    second, and EndFrame. In the pass at position [i] the viewport is set
    right after BeginEyeRender and before the scene is rendered, for the eye
    listed at [i], to what the constructor derived from the combined size
    (W, H): (0, 0, W/2, H) for the left eye and ((W+1)/2, 0, W/2, H) for the
    right eye, in [int] arithmetic; the pass ends by submitting that eye's
    texture header with the pose its BeginEyeRender returned. *)
Theorem constructed_frame_viewports r scene u tr w1 fr w2 :
  Oculus_ctor r (mk_World false (initial_members scene u) tr) = Ok (tt, w1) ->
  render fr w1 = Ok (tt, w2) ->
  let W := Size_w (combined_size r) in
  let H := Size_h (combined_size r) in
  let hmd := acquired_hmd r in
  let eye i := at_index (EyeRenderOrder (r_ovrHmd_GetDesc r hmd)) i in
  let x e := match e with
             | ovrEye_Left => 0
             | ovrEye_Right => CInt.div (CInt.add W 1) 2
             end in
  let pass i MV Proj :=
    [ovrHmd_BeginEyeRender hmd (eye i);
     gl glViewport [gl_int (x (eye i)); gl_int 0; gl_int (CInt.div W 2); gl_int H];
     scene_render MV Proj;
     Utils_GLGetError;
     ovrHmd_EndEyeRender hmd (eye i) (r_ovrHmd_BeginEyeRender fr i)
       (eye_texture (combined_size r) (r_glGenTextures r) (x (eye i)))] in
  exists logs MV0 Proj0 MV1 Proj1,
    calls w2 =
      calls w1 ++
      unbind_calls ++
      [ovrHmd_BeginFrame hmd 0;
       gl glBindFramebuffer [gl_enum GL_FRAMEBUFFER; gl_int (r_glGenFramebuffers r)];
       gl glClearColor [gl_int 0; gl_int 0; gl_int 0; gl_int 1];
       gl glClear [gl_bits [GL_COLOR_BUFFER_BIT; GL_DEPTH_BUFFER_BIT]];
       ovrHmd_GetSensorState hmd (ScanoutMidpointSeconds (r_ovrHmd_BeginFrame fr))] ++
      logs ++
      pass 0%nat MV0 Proj0 ++
      pass 1%nat MV1 Proj1 ++
      [ovrHmd_EndFrame hmd] /\
    forallb is_logger_debug logs = true.
Proof.
  intros Hctor Hrender W H hmd eye x pass.
  rewrite Oculus_ctor_eval in Hctor.
  destruct (first_failure false r); [discriminate Hctor |].
  inversion Hctor; subst w1; clear Hctor.
  destruct (render_eval fr (mk_World true (constructed_object r scene u)
                              (tr ++ ctor_calls r scene u)))
    as (logs & Heval & Hlogs).
  rewrite Heval in Hrender. apply Ok_world_inj in Hrender. subst w2. clear Heval.
  cbn [calls this].
  set (o' := sampled (r_ovrHmd_GetSensorState fr)
               (set_frameTiming_ (r_ovrHmd_BeginFrame fr)
                  (constructed_object r scene u))).
  assert (Ho' : hmdDesc_ o' = r_ovrHmd_GetDesc r (acquired_hmd r) /\
                hmd_ o' = acquired_hmd r /\
                eyeTexture_ o' = eyeTexture_ (constructed_object r scene u)).
  { subst o'. unfold sampled.
    destruct (tracked (StatusFlags (r_ovrHmd_GetSensorState fr)));
      (split; [reflexivity | split; reflexivity]). }
  destruct Ho' as (Hdesc & Hhmd & Htex).
  assert (Hpass : forall i, exists MV Proj, eye_pass_calls o' fr i = pass i MV Proj).
  { intros i. subst pass x eye hmd W H. cbn beta.
    unfold eye_pass_calls, eyeViewport. rewrite Hdesc, Hhmd, Htex.
    destruct (at_index (EyeRenderOrder (r_ovrHmd_GetDesc r (acquired_hmd r))) i);
      eexists; eexists; reflexivity. }
  destruct (Hpass 0%nat) as (MV0 & Proj0 & Hpass0).
  destruct (Hpass 1%nat) as (MV1 & Proj1 & Hpass1).
  exists logs, MV0, Proj0, MV1, Proj1. split; [| exact Hlogs].
  unfold frame_calls. rewrite Hpass0, Hpass1.
  unfold bind_and_clear. cbn [hmd_ FBOId_ constructed_object configured_object app].
  reflexivity.
Qed.

End Lifecycle.

(** * Two instantiations in one program, and copies *)

Section ProgramFacts.

Context {ext : Externals} {T U : Type} {scene_T : Scene T} {scene_U : Scene U}.

Implicit Types (p : Program T U).

Lemma program_invariant_start : program_invariant (program_start (T := T) (U := U)).
Proof.
  unfold program_invariant, program_balanced, live_count.
  split; [left; split; reflexivity |]. split; [left; split; reflexivity |].
  cbn. repeat split.
Qed.

(** A step that is not a copy keeps the invariant: it is a step of one
    instantiation, it keeps that instantiation's singleton and leaves the
    flag and the objects of the other one alone. *)
Lemma program_step_invariant p op p' :
  is_copy op = false ->
  program_invariant p -> program_step p op = Ok p' -> program_invariant p'.
Proof.
  intros Hop (HsT & HsU & H1 & H2 & H3 & H4 & H5) H.
  destruct op as [op | op | i | i]; try discriminate Hop; cbn [program_step] in H.
  - destruct (step (process_T p) op) as [q | f] eqn:E; [| discriminate H].
    inversion H; subst p'; clear H.
    pose proof (step_singleton _ _ _ HsT E) as HsT'.
    pose proof (step_accounted _ _ _ E) as (A1 & A2 & A3 & A4 & A5).
    unfold program_invariant, program_balanced, live_count, paired in *.
    destruct q as [created live tr]. destruct p as [cT lT cU lU trp].
    cbn [process_T process_U with_process_T prog_alreadyCreated_T prog_live_T
         prog_alreadyCreated_U prog_live_U prog_calls proc_alreadyCreated
         proc_live proc_calls] in *.
    split; [exact HsT' |]. split; [exact HsU |].
    repeat split; lia.
  - destruct (step (process_U p) op) as [q | f] eqn:E; [| discriminate H].
    inversion H; subst p'; clear H.
    pose proof (step_singleton _ _ _ HsU E) as HsU'.
    pose proof (step_accounted _ _ _ E) as (A1 & A2 & A3 & A4 & A5).
    unfold program_invariant, program_balanced, live_count, paired in *.
    destruct q as [created live tr]. destruct p as [cT lT cU lU trp].
    cbn [process_T process_U with_process_U prog_alreadyCreated_T prog_live_T
         prog_alreadyCreated_U prog_live_U prog_calls proc_alreadyCreated
         proc_live proc_calls] in *.
    split; [exact HsT |]. split; [exact HsU' |].
    repeat split; lia.
Qed.

Lemma program_run_invariant ops : forall p p',
  no_copies ops ->
  program_invariant p -> program_run p ops = Ok p' -> program_invariant p'.
Proof.
  induction ops as [| op ops IH]; intros p p' Hops Hinv H; cbn [program_run] in H.
  - inversion H; subst. exact Hinv.
  - inversion Hops as [| op' ops' Hop Hrest]; subst.
    destruct (program_step p op) as [p1 | f] eqn:E; [| discriminate H].
    eapply IH; [exact Hrest | | exact H].
    eapply program_step_invariant; eassumption.
Qed.

(** C5, at the failing input: a program constructs a pipeline for scene
    type [T] and then, while that one is live, a pipeline for scene type
    [U], with replies under which no later assertion fails. The second
    construction is not stopped: [assert(!alreadyCreated)] reads the flag of
    [Oculus<U>], which is still false. Both pipelines are live, the runtime
    has been initialised twice and never shut down. A further construction
    for scene type [T] is stopped by the assertion. *)
Theorem second_instantiation_not_guarded
    (sT : T) (uT : Uninitialised) (rT : CtorReplies)
    (sU : U) (uU : Uninitialised) (rU : CtorReplies) :
  first_failure false rT = None ->
  first_failure false rU = None ->
  let p1 : Program T U :=
    mk_Program true [constructed_object rT sT uT] false []
      (ctor_calls rT sT uT) in
  let p2 : Program T U :=
    mk_Program true [constructed_object rT sT uT]
      true [constructed_object rU sU uU]
      (ctor_calls rT sT uT ++ ctor_calls rU sU uU) in
  program_step program_start (in_T (op_new sT uT rT)) = Ok p1 /\
  program_step p1 (in_U (op_new sU uU rU)) = Ok p2 /\
  live_count p2 = 2%nat /\
  count is_ovr_Initialize (prog_calls p2) = 2%nat /\
  count is_ovr_Shutdown (prog_calls p2) = 0%nat /\
  forall (s : T) u r,
    program_step p1 (in_T (op_new s u r)) = Abort assert_not_alreadyCreated.
Proof.
  intros HT HU p1 p2. subst p1 p2.
  split; [| split; [| split; [| split; [| split]]]].
  - cbn [program_step step process_T program_start prog_alreadyCreated_T
         prog_live_T prog_calls proc_alreadyCreated proc_live proc_calls].
    rewrite Oculus_ctor_eval, HT. reflexivity.
  - cbn [program_step step process_U prog_alreadyCreated_U
         prog_live_U prog_calls proc_alreadyCreated proc_live proc_calls].
    rewrite Oculus_ctor_eval, HU. reflexivity.
  - reflexivity.
  - cbn [prog_calls]. rewrite count_app.
    unfold ctor_calls, acquire_calls, configure_calls, computeSizes_calls.
    destruct (is_null (r_ovrHmd_Create rT)), (is_null (r_ovrHmd_Create rU));
      reflexivity.
  - cbn [prog_calls]. rewrite count_app.
    unfold ctor_calls, acquire_calls, configure_calls, computeSizes_calls.
    destruct (is_null (r_ovrHmd_Create rT)), (is_null (r_ovrHmd_Create rU));
      reflexivity.
  - intros s u r.
    cbn [program_step step process_T prog_alreadyCreated_T
         prog_live_T prog_calls proc_alreadyCreated proc_live proc_calls].
    rewrite Oculus_ctor_guard by reflexivity. reflexivity.
Qed.

(** X12: in every run the program survives without copying an object, each
    instantiation has at most one live object and its flag is set exactly
    when it has one; and the calls that obtain a resource outnumber the
    calls that release it by exactly the number of live objects of both
    instantiations: [ovr_Initialize] against [ovr_Shutdown], [ovrHmd_Create]
    against [ovrHmd_Destroy], and the three glGen calls against their
    glDelete calls. *)
Theorem lifecycle_calls_balanced ops p :
  program_run program_start ops = Ok p ->
  no_copies ops ->
  (List.length (prog_live_T p) <= 1)%nat /\
  (List.length (prog_live_U p) <= 1)%nat /\
  (prog_alreadyCreated_T p = true <-> prog_live_T p <> []) /\
  (prog_alreadyCreated_U p = true <-> prog_live_U p <> []) /\
  program_balanced is_ovr_Initialize is_ovr_Shutdown p /\
  program_balanced is_ovrHmd_Create is_ovrHmd_Destroy p /\
  program_balanced (is_gl glGenFramebuffers) (is_gl glDeleteFramebuffers) p /\
  program_balanced (is_gl glGenTextures) (is_gl glDeleteTextures) p /\
  program_balanced (is_gl glGenRenderbuffers) (is_gl glDeleteRenderbuffers) p.
Proof.
  intros Hrun Hops.
  pose proof (program_run_invariant ops _ _ Hops program_invariant_start Hrun)
    as (HsT & HsU & H1 & H2 & H3 & H4 & H5).
  unfold singleton in HsT, HsU. cbn [process_T process_U proc_alreadyCreated proc_live] in *.
  split; [| split; [| split; [| split]]].
  - destruct HsT as [[_ Hl] | [_ [o Hl]]]; rewrite Hl; cbn; lia.
  - destruct HsU as [[_ Hl] | [_ [o Hl]]]; rewrite Hl; cbn; lia.
  - destruct HsT as [[Hf Hl] | [Hf [o Hl]]]; rewrite Hf, Hl.
    + split; [intros E; discriminate E | intros E; exfalso; apply E; reflexivity].
    + split; [intros _; discriminate | intros _; reflexivity].
  - destruct HsU as [[Hf Hl] | [Hf [o Hl]]]; rewrite Hf, Hl.
    + split; [intros E; discriminate E | intros E; exfalso; apply E; reflexivity].
    + split; [intros _; discriminate | intros _; reflexivity].
  - repeat split; assumption.
Qed.

(** X15: what the guard does achieve. After any run the program survives
    without copying an object, a construction for a scene type is stopped
    by [assert(!alreadyCreated)] exactly when an object of that same
    instantiation is live; when none is, it goes on whatever the other
    instantiation holds, and completes if no later assertion fails. *)
Theorem guard_per_instantiation ops p :
  program_run program_start ops = Ok p ->
  no_copies ops ->
  (prog_live_T p <> [] ->
   forall (scene : T) u r,
     program_step p (in_T (op_new scene u r)) = Abort assert_not_alreadyCreated) /\
  (prog_live_U p <> [] ->
   forall (scene : U) u r,
     program_step p (in_U (op_new scene u r)) = Abort assert_not_alreadyCreated) /\
  (prog_live_T p = [] ->
   forall (scene : T) u r,
     program_step p (in_T (op_new scene u r)) =
     match first_failure false r with
     | Some f => Abort f
     | None =>
         Ok (mk_Program true [constructed_object r scene u]
               (prog_alreadyCreated_U p) (prog_live_U p)
               (prog_calls p ++ ctor_calls r scene u))
     end) /\
  (prog_live_U p = [] ->
   forall (scene : U) u r,
     program_step p (in_U (op_new scene u r)) =
     match first_failure false r with
     | Some f => Abort f
     | None =>
         Ok (mk_Program (prog_alreadyCreated_T p) (prog_live_T p)
               true [constructed_object r scene u]
               (prog_calls p ++ ctor_calls r scene u))
     end).
Proof.
  intros Hrun Hops.
  pose proof (program_run_invariant ops _ _ Hops program_invariant_start Hrun)
    as (HsT & HsU & _).
  unfold singleton in HsT, HsU. destruct p as [cT lT cU lU tr].
  cbn [process_T process_U proc_alreadyCreated proc_live
       prog_alreadyCreated_T prog_live_T prog_alreadyCreated_U prog_live_U
       prog_calls] in *.
  split; [| split; [| split]].
  - intros Hlive scene u r.
    destruct HsT as [[_ Hl] | [Hf _]]; [contradiction |]. subst cT.
    cbn [program_step step process_T prog_alreadyCreated_T prog_live_T prog_calls
         proc_alreadyCreated proc_live proc_calls].
    rewrite Oculus_ctor_guard by reflexivity. reflexivity.
  - intros Hlive scene u r.
    destruct HsU as [[_ Hl] | [Hf _]]; [contradiction |]. subst cU.
    cbn [program_step step process_U prog_alreadyCreated_U prog_live_U prog_calls
         proc_alreadyCreated proc_live proc_calls].
    rewrite Oculus_ctor_guard by reflexivity. reflexivity.
  - intros Hlive scene u r. subst lT.
    destruct HsT as [[Hf _] | [_ [o Hl]]]; [| discriminate Hl]. subst cT.
    cbn [program_step step process_T prog_alreadyCreated_T prog_live_T prog_calls
         proc_alreadyCreated proc_live proc_calls].
    rewrite Oculus_ctor_eval.
    destruct (first_failure false r); reflexivity.
  - intros Hlive scene u r. subst lU.
    destruct HsU as [[Hf _] | [_ [o Hl]]]; [| discriminate Hl]. subst cU.
    cbn [program_step step process_U prog_alreadyCreated_U prog_live_U prog_calls
         proc_alreadyCreated proc_live proc_calls].
    rewrite Oculus_ctor_eval.
    destruct (first_failure false r); reflexivity.
Qed.

(** X16: a copy is not seen by the guard. Copying a constructed object
    gives a second live object of the same instantiation with the same
    handle and ids, without any call and without touching the flag.
    Destroying one of the two releases the handle and the ids and clears
    the flag while the other is still live, so that a new construction
    passes the guard; destroying the other one releases the same handle and
    ids a second time. *)
Theorem copy_escapes_guard (scene : T) (u : Uninitialised) (r : CtorReplies) :
  first_failure false r = None ->
  let o : Oculus T := constructed_object r scene u in
  let made := ctor_calls r scene u in
  let p2 : Program T U := mk_Program true [o; o] false [] made in
  let p3 : Program T U := mk_Program false [o] false [] (made ++ dtor_calls o) in
  let p4 : Program T U :=
    mk_Program false [] false [] ((made ++ dtor_calls o) ++ dtor_calls o) in
  program_run program_start [in_T (op_new scene u r); copy_T 0] = Ok p2 /\
  program_step p2 (in_T (op_delete 0)) = Ok p3 /\
  program_step p3 (in_T (op_delete 0)) = Ok p4 /\
  count is_ovrHmd_Create (prog_calls p4) = 1%nat /\
  count is_ovrHmd_Destroy (prog_calls p4) = 2%nat /\
  count is_ovr_Initialize (prog_calls p4) = 1%nat /\
  count is_ovr_Shutdown (prog_calls p4) = 2%nat /\
  forall (scene' : T) u' r',
    first_failure false r' = None ->
    program_step p3 (in_T (op_new scene' u' r')) =
    Ok (mk_Program true [o; constructed_object r' scene' u'] false []
          (prog_calls p3 ++ ctor_calls r' scene' u')).
Proof.
  intros Hpass o made p2 p3 p4. subst p2 p3 p4.
  split; [| split; [| split; [| split; [| split; [| split; [| split]]]]]].
  - cbn [program_run program_step step process_T program_start
         prog_alreadyCreated_T prog_live_T prog_calls
         proc_alreadyCreated proc_live proc_calls].
    rewrite Oculus_ctor_eval, Hpass. reflexivity.
  - cbn [program_step step on_instance process_T prog_alreadyCreated_T
         prog_live_T prog_calls proc_alreadyCreated proc_live proc_calls nth_error].
    rewrite Oculus_dtor_eval. reflexivity.
  - cbn [program_step step on_instance process_T prog_alreadyCreated_T
         prog_live_T prog_calls proc_alreadyCreated proc_live proc_calls nth_error].
    rewrite Oculus_dtor_eval. reflexivity.
  - cbn [prog_calls]. subst made. rewrite !count_app.
    unfold ctor_calls, acquire_calls, configure_calls, computeSizes_calls.
    destruct (is_null (r_ovrHmd_Create r)); reflexivity.
  - cbn [prog_calls]. subst made. rewrite !count_app.
    unfold ctor_calls, acquire_calls, configure_calls, computeSizes_calls.
    destruct (is_null (r_ovrHmd_Create r)); reflexivity.
  - cbn [prog_calls]. subst made. rewrite !count_app.
    unfold ctor_calls, acquire_calls, configure_calls, computeSizes_calls.
    destruct (is_null (r_ovrHmd_Create r)); reflexivity.
  - cbn [prog_calls]. subst made. rewrite !count_app.
    unfold ctor_calls, acquire_calls, configure_calls, computeSizes_calls.
    destruct (is_null (r_ovrHmd_Create r)); reflexivity.
  - intros scene' u' r' Hpass'.
    cbn [program_step step process_T prog_alreadyCreated_T
         prog_live_T prog_calls proc_alreadyCreated proc_live proc_calls].
    rewrite Oculus_ctor_eval, Hpass'. reflexivity.
Qed.

End ProgramFacts.

(** * Runs on the concrete collaborators *)

#[local] Existing Instance Demo.externals.
#[local] Existing Instance Demo.scene.
#[local] Existing Instance Demo.panel.

(** C1, the claim as stated fails: on a 1281 x 800 texture both viewports are
    640 wide, so the widths add up to 1280 and not to the combined width. *)
Lemma eye_widths_miss_odd_width :
  exists o',
    setEyeTexture (Demo.world_sized 1281 800) = Ok (tt, mk_World false o' []) /\
    Size_w (textureSize_ o') = 1281 /\
    Size_w (Size (eyeViewport o' ovrEye_Left)) = 640 /\
    Size_w (Size (eyeViewport o' ovrEye_Right)) = 640 /\
    viewport_width_sum o' <> Size_w (textureSize_ o').
Proof.
  eexists. split; [vm_compute; reflexivity |].
  vm_compute. repeat split; discriminate.
Qed.

Lemma setEyeTexture_viewports_witness :
  exists o',
    setEyeTexture (Demo.world_sized 1281 800) = Ok (tt, mk_World false o' []) /\
    eyeViewport o' ovrEye_Left = mk_Recti (mk_Vector2i 0 0) (mk_Sizei 640 800) /\
    eyeViewport o' ovrEye_Right = mk_Recti (mk_Vector2i 641 0) (mk_Sizei 640 800) /\
    viewport_width_sum o' = 1280.
Proof.
  destruct (setEyeTexture_viewports (Demo.world_sized 1281 800))
    as (o' & Hrun & Hleft & Hright & _ & _ & _ & Hsum).
  - cbn. unfold CInt.INT_MAX. lia.
  - exists o'. repeat split; assumption.
Defined.

(** C2, at the failing input: on the object the member initialiser list
    creates, at rest with all angles and all deltas zero, the accumulator
    does end false, as the claim says, but [isMoving()] returns its negation,
    true, where the claim and the documentation of the method ("true if the
    Oculus Rift is moving, else false") call for false. *)
Lemma isMoving_true_at_rest :
  angles_ Demo.object = mk_vec3 zero_f zero_f zero_f /\
  dAngles_ Demo.object = mk_vec3 zero_f zero_f zero_f /\
  isMoving_loop Demo.object 0 3 false = false /\
  isMoving Demo.object = true /\
  isMoving Demo.object <> false.
Proof. vm_compute. repeat split; discriminate. Qed.

Lemma computeSizes_combined_witness :
  exists o' log,
    computeSizes (Demo.world Demo.object) =
      Ok (tt, mk_World false o' [logger_debug log]) /\
    textureSize_ o' = mk_Sizei 1281 800.
Proof.
  destruct (computeSizes_combined (Demo.world Demo.object))
    as (o' & log & Hrun & _ & _ & Hsize).
  - cbn. unfold CInt.in_range, CInt.INT_MIN, CInt.INT_MAX. lia.
  - exists o', log. split; assumption.
Defined.

(** The orientation-delta example: previous angles (0.1, 0.2, 0.3) and
    current angles (0.15, 0.18, 0.3), as binary32 values, give a delta within
    1e-6 of (0.05, -0.02, 0.0). *)
Lemma getInput_tracked_delta_witness :
  exists o' tr',
    getInput (Demo.sample 1) Demo.world_tracking = Ok (tt, mk_World false o' tr') /\
    angles_ o' = Demo.currentAngles /\
    F32.within (1 # 1000000) (vec_x (dAngles_ o')) (5 # 100) /\
    F32.within (1 # 1000000) (vec_y (dAngles_ o')) (- 2 # 100) /\
    F32.within (1 # 1000000) (vec_z (dAngles_ o')) 0.
Proof.
  destruct (getInput_tracked_delta (Demo.sample 1) Demo.world_tracking
              (vec_x Demo.currentAngles) (vec_y Demo.currentAngles)
              (vec_z Demo.currentAngles))
    as (o' & tr' & Hrun & Hangles & Hdelta & _).
  - left. vm_compute. discriminate.
  - reflexivity.
  - exists o', tr'. split; [exact Hrun |]. split; [exact Hangles |].
    rewrite Hdelta. unfold F32.within, Qle.
    vm_compute. repeat split; discriminate.
Defined.

Lemma getInput_untracked_keeps_angles_witness :
  exists o' tr',
    getInput (Demo.sample 128) Demo.world_tracking = Ok (tt, mk_World false o' tr') /\
    angles_ o' = Demo.previousAngles /\
    dAngles_ o' = mk_vec3 zero_f zero_f zero_f.
Proof.
  destruct (getInput_untracked_keeps_angles (Demo.sample 128) Demo.world_tracking)
    as (o' & Hrun & Hangles & Hdelta & _).
  - reflexivity.
  - reflexivity.
  - exists o'. eexists. split; [exact Hrun |]. split; assumption.
Defined.

(** Without a headset the construction completes on the debug device; with
    one it completes on the headset; with neither it aborts. *)
Lemma Oculus_ctor_debug_fallback_witness :
  (exists w',
     Oculus_ctor (Demo.replies 0 7) (Demo.world Demo.object) = Ok (tt, w') /\
     isUsingDebugHmd (this w') = true /\ hmd_ (this w') = 7) /\
  (exists w',
     Oculus_ctor (Demo.replies 5 7) (Demo.world Demo.object) = Ok (tt, w') /\
     isUsingDebugHmd (this w') = false /\ hmd_ (this w') = 5) /\
  Oculus_ctor (Demo.replies 0 0) (Demo.world Demo.object) = Abort assert_hmd.
Proof.
  split; [| split].
  - eexists. split; [vm_compute; reflexivity |].
    destruct (Oculus_ctor_debug_fallback (Demo.replies 0 7) tt Demo.uninitialised [])
      as (_ & Hdebug & _).
    destruct Hdebug as (_ & Hdone); [reflexivity | discriminate |].
    edestruct Hdone as (_ & Hh & Hd); [vm_compute; reflexivity |].
    split; [exact Hd | exact Hh].
  - eexists. split; [vm_compute; reflexivity |].
    destruct (Oculus_ctor_debug_fallback (Demo.replies 5 7) tt Demo.uninitialised [])
      as (_ & _ & Hreal & _).
    destruct Hreal as (_ & Hdone); [discriminate |].
    edestruct Hdone as (Hh & Hd); [vm_compute; reflexivity |].
    split; [exact Hd | exact Hh].
  - destruct (Oculus_ctor_debug_fallback (Demo.replies 0 0) tt Demo.uninitialised [])
      as (Hnone & _).
    apply Hnone; reflexivity.
Defined.

(** ** Runs for the further properties *)

Lemma Oculus_ctor_postcondition_witness :
  Oculus_ctor (Demo.replies 0 7) (Demo.world Demo.object) =
    Ok (tt, Demo.constructed_world) /\
  alreadyCreated Demo.constructed_world = true /\
  this Demo.constructed_world =
    constructed_object (Demo.replies 0 7) tt Demo.uninitialised /\
  textureSize_ (this Demo.constructed_world) = mk_Sizei 1281 800.
Proof.
  assert (H : Oculus_ctor (Demo.replies 0 7) (Demo.world Demo.object) =
              Ok (tt, Demo.constructed_world)) by (vm_compute; reflexivity).
  destruct (Oculus_ctor_postcondition (Demo.replies 0 7) tt Demo.uninitialised
              false [] Demo.constructed_world H) as (_ & Hflag & Hobj & _).
  split; [exact H |]. split; [exact Hflag |]. split; [exact Hobj |].
  reflexivity.
Defined.

Lemma Oculus_dtor_releases_constructed_witness :
  exists tr',
    Oculus_dtor Demo.constructed_world =
      Ok (tt, mk_World false (this Demo.constructed_world) tr') /\
    In (gl glDeleteTextures [gl_int 1; gl_int 2]) tr' /\
    In (ovrHmd_Destroy 7) tr'.
Proof.
  assert (H : Oculus_ctor (Demo.replies 0 7) (Demo.world Demo.object) =
              Ok (tt, Demo.constructed_world)) by (vm_compute; reflexivity).
  pose proof (Oculus_dtor_releases_constructed (Demo.replies 0 7) tt
                Demo.uninitialised [] Demo.constructed_world H) as Hd.
  eexists. split; [exact Hd |].
  split; apply in_or_app; right; vm_compute; tauto.
Defined.

Lemma Oculus_ctor_device_calls_witness :
  exists new,
    calls Demo.constructed_world = new /\
    count is_ovr_Initialize new = 1%nat /\
    count is_ovrHmd_CreateDebug new = 1%nat.
Proof.
  assert (H : Oculus_ctor (Demo.replies 0 7) (Demo.world Demo.object) =
              Ok (tt, Demo.constructed_world)) by (vm_compute; reflexivity).
  destruct (Oculus_ctor_device_calls (Demo.replies 0 7) tt Demo.uninitialised
              [] Demo.constructed_world H)
    as (new & before & Hcalls & _ & Hinit & _ & _ & Hdebug & _).
  exists new. split; [exact Hcalls |]. split; [exact Hinit | exact Hdebug].
Defined.


Lemma render_frame_effect_witness :
  exists w',
    render Demo.frame Demo.constructed_world = Ok (tt, w') /\
    alreadyCreated w' = true /\
    frameTiming_ (this w') = mk_FrameTiming lit_1_0f.
Proof.
  assert (H : exists w', render Demo.frame Demo.constructed_world = Ok (tt, w'))
    by (eexists; vm_compute; reflexivity).
  destruct H as [w' H].
  destruct (render_frame_effect Demo.frame Demo.constructed_world w' H)
    as (Hflag & Htiming & _).
  exists w'. split; [exact H |]. split; [exact Hflag | exact Htiming].
Defined.

Lemma getInput_stationary_witness :
  exists o' tr',
    getInput (Demo.sample 1) Demo.world_at_rest = Ok (tt, mk_World false o' tr') /\
    dAngles_ o' = mk_vec3 zero_f zero_f zero_f /\
    isMoving o' = true.
Proof.
  destruct (getInput_stationary (Demo.sample 1) Demo.world_at_rest)
    as (o' & tr' & Hrun & _ & Hdelta & Hmoving);
    try reflexivity.
  exists o', tr'. split; [exact Hrun |]. split; [exact Hdelta | exact Hmoving].
Defined.

Lemma getInput_before_first_render_witness :
  exists o' logs,
    getInput (Demo.sample 1) Demo.constructed_world =
      Ok (tt, mk_World true o'
                (calls Demo.constructed_world ++
                 ovrHmd_GetSensorState 7 zero_f :: logs)).
Proof.
  assert (H : Oculus_ctor (Demo.replies 0 7) (Demo.world Demo.object) =
              Ok (tt, Demo.constructed_world)) by (vm_compute; reflexivity).
  destruct (getInput_before_first_render (Demo.replies 0 7) tt Demo.uninitialised
              [] Demo.constructed_world (Demo.sample 1) H)
    as (o' & logs & Hrun & _).
  exists o', logs. exact Hrun.
Defined.

Lemma release_then_reacquire_witness :
  exists p1 p2,
    step Demo.session_end (op_delete 0) = Ok p1 /\
    proc_live p1 = [] /\
    step p1 (op_new tt Demo.uninitialised (Demo.replies 0 7)) = Ok p2 /\
    proc_live p2 = [constructed_object (Demo.replies 0 7) tt Demo.uninitialised].
Proof.
  destruct (release_then_reacquire Demo.session_end _ tt Demo.uninitialised
              (Demo.replies 0 7) eq_refl eq_refl)
    as (p1 & Hdel & _ & Hlive & _ & Hnew).
  exists p1. eexists. split; [exact Hdel |]. split; [exact Hlive |].
  split; [exact Hnew | reflexivity].
Defined.

Lemma lifecycle_calls_balanced_witness :
  program_run program_start Demo.program_session = Ok Demo.program_session_end /\
  live_count Demo.program_session_end = 2%nat /\
  count is_ovr_Initialize (prog_calls Demo.program_session_end) = 3%nat /\
  count is_ovr_Shutdown (prog_calls Demo.program_session_end) = 1%nat /\
  program_balanced is_ovr_Initialize is_ovr_Shutdown Demo.program_session_end.
Proof.
  assert (Hrun : program_run program_start Demo.program_session =
                 Ok Demo.program_session_end) by (vm_compute; reflexivity).
  assert (Hops : no_copies Demo.program_session) by (repeat constructor).
  destruct (lifecycle_calls_balanced (T := unit) (U := bool) Demo.program_session Demo.program_session_end
              Hrun Hops) as (_ & _ & _ & _ & Hinit & _).
  split; [exact Hrun |]. split; [reflexivity |]. split; [reflexivity |].
  split; [reflexivity | exact Hinit].
Defined.

(** At the end of that session both instantiations hold a pipeline: a
    third construction is stopped for either scene type. *)
Lemma guard_per_instantiation_witness :
  program_step Demo.program_session_end
    (in_T (op_new tt Demo.uninitialised (Demo.replies 6 7))) =
    Abort assert_not_alreadyCreated /\
  program_step Demo.program_session_end
    (in_U (op_new false Demo.uninitialised (Demo.replies 6 7))) =
    Abort assert_not_alreadyCreated.
Proof.
  assert (Hrun : program_run program_start Demo.program_session =
                 Ok Demo.program_session_end) by (vm_compute; reflexivity).
  assert (Hops : no_copies Demo.program_session) by (repeat constructor).
  destruct (guard_per_instantiation (T := unit) (U := bool) Demo.program_session Demo.program_session_end
              Hrun Hops) as (HT & HU & _ & _).
  split; [apply HT | apply HU]; vm_compute; discriminate.
Defined.

(** The failing input of C5: a pipeline for the scene type [unit] on the
    headset, then one for the scene type [bool] on the debug device. *)
Lemma second_instantiation_not_guarded_witness :
  program_run program_start Demo.two_pipelines = Ok Demo.two_pipelines_end /\
  List.length (prog_live_T Demo.two_pipelines_end) = 1%nat /\
  List.length (prog_live_U Demo.two_pipelines_end) = 1%nat /\
  count is_ovr_Initialize (prog_calls Demo.two_pipelines_end) = 2%nat /\
  count is_ovr_Shutdown (prog_calls Demo.two_pipelines_end) = 0%nat.
Proof.
  assert (HT : first_failure false (Demo.replies 5 7) = None)
    by (vm_compute; reflexivity).
  assert (HU : first_failure false (Demo.replies 0 8) = None)
    by (vm_compute; reflexivity).
  destruct (second_instantiation_not_guarded (T := unit) (U := bool)
              tt Demo.uninitialised (Demo.replies 5 7)
              true Demo.uninitialised (Demo.replies 0 8) HT HU)
    as (H1 & H2 & _ & Hinit & Hshut & _).
  assert (Hrun : program_run program_start Demo.two_pipelines =
                 Ok Demo.two_pipelines_end).
  { unfold Demo.two_pipelines. cbn [program_run]. rewrite H1, H2.
    vm_compute. reflexivity. }
  split; [exact Hrun |]. split; [reflexivity |]. split; [reflexivity |].
  split; vm_compute; reflexivity.
Defined.

Lemma copy_escapes_guard_witness :
  exists p2,
    program_run (U := bool) program_start
      [in_T (op_new tt Demo.uninitialised (Demo.replies 0 7)); copy_T 0] = Ok p2 /\
    List.length (prog_live_T p2) = 2%nat /\
    prog_calls p2 = calls Demo.constructed_world.
Proof.
  assert (Hpass : first_failure false (Demo.replies 0 7) = None)
    by (vm_compute; reflexivity).
  destruct (copy_escapes_guard (T := unit) (U := bool) tt Demo.uninitialised
              (Demo.replies 0 7) Hpass) as (Hrun & _).
  eexists. split; [exact Hrun |]. split; vm_compute; reflexivity.
Defined.


Lemma untracked_frames_keep_angles_witness :
  exists p' o',
    run Demo.session_end (map (op_render 0) [Demo.idle_frame; Demo.idle_frame]) = Ok p' /\
    proc_live p' = [o'] /\
    angles_ o' = mk_vec3 zero_f zero_f zero_f.
Proof.
  destruct (untracked_frames_keep_angles [Demo.idle_frame; Demo.idle_frame]
              Demo.session_end _ eq_refl)
    as (p' & o' & Hrun & Hlive & _ & Hangles & _).
  - repeat constructor.
  - exists p', o'. split; [exact Hrun |]. split; [exact Hlive | exact Hangles].
Defined.

Lemma constructed_frame_viewports_witness :
  exists logs,
    calls Demo.rendered_world =
      calls Demo.constructed_world ++
      unbind_calls ++
      [ovrHmd_BeginFrame 7 0;
       gl glBindFramebuffer [gl_enum GL_FRAMEBUFFER; gl_int 1];
       gl glClearColor [gl_int 0; gl_int 0; gl_int 0; gl_int 1];
       gl glClear [gl_bits [GL_COLOR_BUFFER_BIT; GL_DEPTH_BUFFER_BIT]];
       ovrHmd_GetSensorState 7 lit_1_0f] ++
      logs ++
      [ovrHmd_BeginEyeRender 7 ovrEye_Right;
       gl glViewport [gl_int 641; gl_int 0; gl_int 640; gl_int 800];
       scene_render tt tt;
       Utils_GLGetError;
       ovrHmd_EndEyeRender 7 ovrEye_Right Demo.pose0
         (eye_texture (mk_Sizei 1281 800) 2 641)] ++
      [ovrHmd_BeginEyeRender 7 ovrEye_Left;
       gl glViewport [gl_int 0; gl_int 0; gl_int 640; gl_int 800];
       scene_render tt tt;
       Utils_GLGetError;
       ovrHmd_EndEyeRender 7 ovrEye_Left Demo.pose0
         (eye_texture (mk_Sizei 1281 800) 2 0)] ++
      [ovrHmd_EndFrame 7].
Proof.
  assert (Hctor : Oculus_ctor (Demo.replies 0 7) (Demo.world Demo.object) =
                  Ok (tt, Demo.constructed_world)) by (vm_compute; reflexivity).
  assert (Hrender : render Demo.frame Demo.constructed_world =
                    Ok (tt, Demo.rendered_world)) by (vm_compute; reflexivity).
  destruct (constructed_frame_viewports (Demo.replies 0 7) tt Demo.uninitialised []
              Demo.constructed_world Demo.frame Demo.rendered_world Hctor Hrender)
    as (logs & [] & [] & [] & [] & Hcalls & _).
  exists logs. exact Hcalls.
Defined.
